(** * Item Management API (src/app.py): a shallow embedding and its properties

    The service keeps a process-wide list of items ([in_memory_store]), mirrors
    it into a JSON file ([PERSISTENCE_FILE]) and, when a PostgreSQL database is
    reachable, into a table behind the stored procedure [add_call].

    What is modelled, and how:
    - Python [int] is [Z], [str] is [string], [Optional[int]] is [option Z];
    - Python [float] is IEEE-754 binary64, given by the Standard Library's
      executable specification [spec_float] with precision 53 and maximal
      exponent 1024; subtraction, [abs] and the comparisons are the library's;
    - exceptions, [try]/[except]/[finally] and the module-level globals are a
      state-and-exception monad; the locals [conn] and [cur], which the source
      tests with ['conn' in locals()] or uses unguarded, live in a frame;
    - everything outside the process (the database driver, the file system and
      the clock) answers from an environment record: one field per call,
      saying whether the call returns or what it raises.  Every call made is
      recorded in the trace of the world in the order it is made.
    Logging has no effect on the results and is left out; the handlers are
    [async] functions without any [await], so each one runs to completion. *)

From Stdlib Require Import ZArith List String Bool Lia SpecFloat DecimalString.
From Stdlib Require Import Permutation Sorted.
Import ListNotations.
Open Scope Z_scope.

(** ** Python values *)

Definition float : Type := spec_float.

Definition prec : Z := 53.
Definition emax : Z := 1024.

Definition float_sub (x y : float) : float := SFsub prec emax x y.
Definition float_abs (x : float) : float := SFabs x.
Definition float_lt (x y : float) : bool := SFltb x y.
Definition float_le (x y : float) : bool := SFleb x y.

Definition float_zero : float := S754_zero false.

(** The literal [0.01]: the binary64 number nearest to 1/100,
    0x1.47ae147ae147bp-7. *)
Definition float_0_01 : float := S754_finite false 5764607523034235 (-59).

(** [str(n)] for an integer, as the f-strings print it. *)
Definition str_int (n : Z) : string := NilZero.string_of_int (Z.to_int n).

(** ** Exceptions *)

Inductive exn : Type :=
| HTTPException (status_code : Z) (detail : string)
| Psycopg2Error (msg : string)          (* psycopg2.Error and its subclasses *)
| PyException (msg : string).           (* any other Exception *)

(** [str(e)]; Starlette prints an [HTTPException] as its code and detail. *)
Definition str_exn (e : exn) : string :=
  match e with
  | HTTPException c d => (str_int c ++ ": " ++ d)%string
  | Psycopg2Error m => m
  | PyException m => m
  end.

Inductive result (A : Type) : Type :=
| Return (a : A)
| Raise (e : exn).
Arguments Return {A} a.
Arguments Raise {A} e.

(** ** Data model *)

Module Item.
Record t : Type := mk
  { id : option Z; code : string; unit : Z; age : Z; cost : float }.
End Item.

Module AddItemRequest.
Record t : Type := mk
  { id : Z; code : string; unit : Z; age : Z; cost : float }.
End AddItemRequest.

Inductive SortRequest : Type := sort_by_unit | sort_by_age | sort_by_cost.

Module RemoveRequest.
Record t : Type := mk { id : Z }.
End RemoveRequest.

(** [data] of the responses is a dict from names to an integer or [None]. *)
Module ApiResponse.
Record t : Type := mk
  { status : string; message : string; data : list (string * option Z) }.
End ApiResponse.

(** The field constraints of [Item] ([min_length=1], [ge=0]); [cost >= 0] is
    false on NaN. *)
Definition Item_fields_ok (c : string) (u a : Z) (x : float) : bool :=
  negb (String.eqb c "") && (0 <=? u) && (0 <=? a) && float_le float_zero x.

Definition Item_ok (it : Item.t) : bool :=
  Item_fields_ok (Item.code it) (Item.unit it) (Item.age it) (Item.cost it).

(** [AddItemRequest] has the same constraints; FastAPI validates the body
    before the handler runs, so the handler only sees requests with
    [AddItemRequest_ok]. *)
Definition AddItemRequest_ok (r : AddItemRequest.t) : bool :=
  Item_fields_ok (AddItemRequest.code r) (AddItemRequest.unit r)
                 (AddItemRequest.age r) (AddItemRequest.cost r).

(** The constructor [Item(id=..., code=..., ...)]: pydantic validates. *)
Definition Item_new (i : option Z) (c : string) (u a : Z) (x : float)
  : result Item.t :=
  if Item_fields_ok c u a x
  then Return (Item.mk i c u a x)
  else Raise (PyException "ValidationError").

(** ** The File Store *)

(** [item.dict()], the JSON object written for one item. *)
Module ItemDict.
Record t : Type := mk
  { id : option Z; code : string; unit : Z; age : Z; cost : float }.
End ItemDict.

Definition Item_dict (it : Item.t) : ItemDict.t :=
  ItemDict.mk (Item.id it) (Item.code it) (Item.unit it) (Item.age it)
              (Item.cost it).

(** [Item( **d )] *)
Definition Item_of_dict (d : ItemDict.t) : result Item.t :=
  Item_new (ItemDict.id d) (ItemDict.code d) (ItemDict.unit d)
           (ItemDict.age d) (ItemDict.cost d).

(** The document of [save_to_file]: a JSON object whose items, when the key
    is there, are objects holding the five fields in their JSON types (a
    document written by another hand may lack the key ["items"]). *)
Record Document : Type :=
  { doc_items : option (list ItemDict.t); doc_timestamp : string }.

(** The state of [PERSISTENCE_FILE].  [FileMalformed] is any content on which
    [open], [json.load] or [data.get] raises: an empty or cut file, invalid
    JSON, JSON that is not an object.  Documents whose fields have other JSON
    types, which pydantic may coerce, are not represented. *)
Inductive file_state : Type :=
| FileAbsent
| FileMalformed
| FileDoc (d : Document).

(** ** The world and what the handlers do to it *)

Inductive effect : Type :=
| DbConnect
| DbCursor
| DbCallproc (proc code : string) (unit age : Z) (cost : float)
| DbExecute (sql : string) (param : option Z)
| DbFetchone
| DbCommit
| DbRollback
| DbCursorClose
| DbClose
| FileWrite.

Definition is_db_effect (e : effect) : bool :=
  match e with FileWrite => false | _ => true end.

Record World : Type :=
  { in_memory_store : list Item.t;
    persistence_file : file_state;
    trace : list effect }.

Definition set_store (l : list Item.t) (w : World) : World :=
  {| in_memory_store := l;
     persistence_file := persistence_file w;
     trace := trace w |}.

Definition set_file (f : file_state) (w : World) : World :=
  {| in_memory_store := in_memory_store w;
     persistence_file := f;
     trace := trace w |}.

Definition record_effect (e : effect) (w : World) : World :=
  {| in_memory_store := in_memory_store w;
     persistence_file := persistence_file w;
     trace := trace w ++ [e] |}.

(** ** The monad: state and exceptions *)

Definition M (S A : Type) : Type := S -> result A * S.

Definition ret {S A : Type} (a : A) : M S A := fun s => (Return a, s).

Definition raise {S A : Type} (e : exn) : M S A := fun s => (Raise e, s).

Definition bind {S A B : Type} (m : M S A) (k : A -> M S B) : M S B :=
  fun s =>
    match m s with
    | (Return a, s') => k a s'
    | (Raise e, s') => (Raise e, s')
    end.

(** [try: m except ... as e: h e] *)
Definition try_except {S A : Type} (m : M S A) (h : exn -> M S A) : M S A :=
  fun s =>
    match m s with
    | (Return a, s') => (Return a, s')
    | (Raise e, s') => h e s'
    end.

(** [try: m finally: f]: [f] always runs; what [f] raises replaces the
    outcome of [m]. *)
Definition try_finally {S A : Type} (m : M S A) (f : M S Datatypes.unit)
  : M S A :=
  fun s =>
    match m s with
    | (r, s1) =>
        match f s1 with
        | (Return _, s2) => (r, s2)
        | (Raise e, s2) => (Raise e, s2)
        end
    end.

Definition get {S : Type} : M S S := fun s => (Return s, s).
Definition modify {S : Type} (f : S -> S) : M S Datatypes.unit :=
  fun s => (Return tt, f s).

Declare Scope py_scope.
Delimit Scope py_scope with py.
Notation "x <- m ;; k" := (bind m (fun x => k))
  (at level 61, m at next level, right associativity) : py_scope.
Notation "m ;; k" := (bind m (fun _ => k))
  (at level 61, right associativity) : py_scope.
Open Scope py_scope.

(** The locals of a function that the source looks up by name: whether
    [conn] and [cur] have been assigned. *)
Record Frame : Type := { conn : bool; cur : bool }.

Definition no_locals : Frame := {| conn := false; cur := false |}.

Definition F (A : Type) : Type := M (Frame * World) A.

(** A call of a function that runs in the caller's world with its own frame. *)
Definition call {A : Type} (m : F A) : M World A :=
  fun w => match m (no_locals, w) with (r, s) => (r, snd s) end.

(** A function without such locals, called from one that has them. *)
Definition lift {A : Type} (m : M World A) : F A :=
  fun s => match m (snd s) with (r, w) => (r, (fst s, w)) end.

Definition assign_conn : F Datatypes.unit :=
  modify (fun s => ({| conn := true; cur := cur (fst s) |}, snd s)).
Definition assign_cur : F Datatypes.unit :=
  modify (fun s => ({| conn := conn (fst s); cur := true |}, snd s)).

Definition UnboundLocalError (name : string) : exn :=
  PyException ("UnboundLocalError: " ++ name)%string.

(** ** The environment *)

(** What a call into the driver can raise. *)
Inductive raised : Type :=
| DriverError (msg : string)      (* a psycopg2.Error *)
| OtherError (msg : string).      (* anything else *)

Definition exn_of_raised (r : raised) : exn :=
  match r with
  | DriverError m => Psycopg2Error m
  | OtherError m => PyException m
  end.

(** [None]: the call returns. *)
Definition outcome : Type := option raised.

(** The row [cur.fetchone()] gives: none, or the columns of [add_call]. *)
Inductive fetched : Type :=
| FetchRaises (r : raised)
| FetchNone
| FetchRow (id : option Z) (status : Z) (message : string).

(** One database session: a connection opened, used and closed. *)
Record Session : Type :=
  { connect : outcome;
    cursor : outcome;
    statement : outcome;            (* [cur.callproc] or [cur.execute] *)
    fetchone : fetched;
    commit : outcome;
    rollback : outcome;
    cursor_close : outcome;
    close : outcome }.

Inductive write_outcome : Type :=
| WriteOk
| OpenRaises                        (* [open(..., 'w')] raises: file untouched *)
| DumpRaises.                       (* [json.dump] raises: file cut short *)

Record Env : Type :=
  { probe : Session;                (* the session of [test_db_connection] *)
    session : Session;              (* the session of the operation itself *)
    now : string;                   (* [datetime.now().isoformat()] *)
    write : write_outcome }.

Definition driver (e : effect) (o : outcome) : M World Datatypes.unit :=
  fun w =>
    match o with
    | None => (Return tt, record_effect e w)
    | Some r => (Raise (exn_of_raised r), record_effect e w)
    end.

Definition of_result {S A : Type} (r : result A) : M S A := fun s => (r, s).

(** ** Database gateway *)

Definition get_db_connection (s : Session) : M World Datatypes.unit :=
  try_except
    (driver DbConnect (connect s))
    (fun e =>
       match e with
       | Psycopg2Error _ =>
           raise (HTTPException 503 "Database connection failed")
       | _ => raise e
       end).

Definition test_db_connection (s : Session) : M World bool :=
  try_except
    (get_db_connection s ;;
     driver DbClose (close s) ;;
     ret true)
    (fun _ => ret false).

(** ** File store *)

Definition save_to_file (env : Env) : M World Datatypes.unit :=
  try_except
    (w <- get ;;
     let data := {| doc_items := Some (map Item_dict (in_memory_store w));
                    doc_timestamp := now env |} in
     modify (record_effect FileWrite) ;;
     match write env with
     | WriteOk => modify (set_file (FileDoc data))
     | OpenRaises => raise (PyException "OSError")
     | DumpRaises =>
         modify (set_file FileMalformed) ;; raise (PyException "OSError")
     end)
    (fun _ => ret tt).

(** [[Item( **item ) for item in l]]: the first invalid entry raises. *)
Fixpoint Items_of_dicts (l : list ItemDict.t) : result (list Item.t) :=
  match l with
  | [] => Return []
  | d :: l' =>
      match Item_of_dict d with
      | Raise e => Raise e
      | Return it =>
          match Items_of_dicts l' with
          | Raise e => Raise e
          | Return its => Return (it :: its)
          end
      end
  end.

Definition load_from_file : M World Datatypes.unit :=
  try_except
    (w <- get ;;
     match persistence_file w with
     | FileAbsent => ret tt
     | FileMalformed => raise (PyException "JSONDecodeError")
     | FileDoc data =>
         let dicts := match doc_items data with Some l => l | None => [] end in
         its <- of_result (Items_of_dicts dicts) ;;
         modify (set_store its)
     end)
    (fun _ => modify (set_store [])).

(** ** Duplicate check *)

Definition is_duplicate_of (c : string) (u a : Z) (x : float) (item : Item.t)
  : bool :=
  String.eqb (Item.code item) c && (Item.unit item =? u)
  && (Item.age item =? a)
  && float_lt (float_abs (float_sub (Item.cost item) x)) float_0_01.

Definition check_duplicate_in_memory (c : string) (u a : Z) (x : float)
  : M World bool :=
  w <- get ;;
  ret (existsb (is_duplicate_of c u a x) (in_memory_store w)).

(** ** The stored procedure *)

Definition in_locals (bound : Frame -> bool) : F bool :=
  fun s => (Return (bound (fst s)), s).

(** Reading a local: raises when it was never assigned. *)
Definition local (bound : Frame -> bool) (name : string) : F Datatypes.unit :=
  fun s =>
    if bound (fst s) then (Return tt, s)
    else (Raise (UnboundLocalError name), s).

Definition when {S : Type} (b : bool) (m : M S Datatypes.unit)
  : M S Datatypes.unit :=
  if b then m else ret tt.

Definition call_stored_procedure (s : Session) (c : string) (u a : Z)
  (x : float) : M World (option Z * Z * string) :=
  call
    (try_finally
       (try_except
          (lift (get_db_connection s) ;; assign_conn ;;
           lift (driver DbCursor (cursor s)) ;; assign_cur ;;
           lift (driver (DbCallproc "add_call" c u a x) (statement s)) ;;
           result <-
             lift (match fetchone s with
                   | FetchRaises r => driver DbFetchone (Some r) ;; ret None
                   | FetchNone => driver DbFetchone None ;; ret None
                   | FetchRow i st m =>
                       driver DbFetchone None ;; ret (Some (i, st, m))
                   end) ;;
           lift (driver DbCommit (commit s)) ;;
           match result with
           | Some row => ret row
           | None => raise (PyException "No result from stored procedure")
           end)
          (fun e =>
             match e with
             | Psycopg2Error _ =>
                 b <- in_locals conn ;;
                 when b (lift (driver DbRollback (rollback s))) ;;
                 raise (HTTPException 500
                          ("Database error: " ++ str_exn e)%string)
             | _ =>
                 b <- in_locals conn ;;
                 when b (lift (driver DbRollback (rollback s))) ;;
                 raise (HTTPException 500
                          ("Stored procedure error: " ++ str_exn e)%string)
             end))
       (b <- in_locals cur ;;
        when b (lift (driver DbCursorClose (cursor_close s))) ;;
        b' <- in_locals conn ;;
        when b' (lift (driver DbClose (close s))))).

(** ** POST /add *)

Definition memory_only_message : string :=
  "Item added to memory only (database unavailable)".

Definition item_of_request (i : option Z) (request : AddItemRequest.t)
  : result Item.t :=
  Item_new i (AddItemRequest.code request) (AddItemRequest.unit request)
           (AddItemRequest.age request) (AddItemRequest.cost request).

Definition add_item (env : Env) (request : AddItemRequest.t)
  : M World ApiResponse.t :=
  try_except
    (dup <- check_duplicate_in_memory
              (AddItemRequest.code request) (AddItemRequest.unit request)
              (AddItemRequest.age request) (AddItemRequest.cost request) ;;
     when dup
       (raise (HTTPException 400 "Duplicate item detected in memory store")) ;;
     db_available <- test_db_connection (probe env) ;;
     im <-
       (if db_available : bool then
          try_except
            (r <- call_stored_procedure (session env)
                    (AddItemRequest.code request) (AddItemRequest.unit request)
                    (AddItemRequest.age request) (AddItemRequest.cost request) ;;
             let '(row_id, status, message) := r in
             when (status =? 0) (raise (HTTPException 400 message)) ;;
             item <- of_result (item_of_request row_id request) ;;
             ret (item, message))
            (fun e =>
               match e with
               | HTTPException _ _ => raise e
               | _ =>
                   item <- of_result
                             (item_of_request
                                (Some (AddItemRequest.id request)) request) ;;
                   ret (item, memory_only_message)
               end)
        else
          item <- of_result
                    (item_of_request
                       (Some (AddItemRequest.id request)) request) ;;
          ret (item, memory_only_message)) ;;
     let '(item, message) := im in
     modify (fun w => set_store (in_memory_store w ++ [item]) w) ;;
     save_to_file env ;;
     w <- get ;;
     ret (ApiResponse.mk "success" message
            [("id"%string, Item.id item);
             ("total_items"%string,
              Some (Z.of_nat (List.length (in_memory_store w))))]))
    (fun e =>
       match e with
       | HTTPException _ _ => raise e
       | _ => raise (HTTPException 500 "Internal server error")
       end).

(** ** POST /snapshot *)

(** [getattr(x, sort_by) < getattr(y, sort_by)] *)
Definition key_lt (sort_by : SortRequest) (x y : Item.t) : bool :=
  match sort_by with
  | sort_by_unit => Item.unit x <? Item.unit y
  | sort_by_age => Item.age x <? Item.age y
  | sort_by_cost => float_lt (Item.cost x) (Item.cost y)
  end.

(** The built-in [sorted]: a stable sort that compares with [<] only.  An
    element goes in front of the already sorted rest, and moves right past
    the elements that are smaller than it. *)
Fixpoint insert_sorted {A : Type} (lt : A -> A -> bool) (x : A) (l : list A)
  : list A :=
  match l with
  | [] => [x]
  | y :: l' => if lt y x then y :: insert_sorted lt x l' else x :: y :: l'
  end.

Fixpoint sorted {A : Type} (lt : A -> A -> bool) (l : list A) : list A :=
  match l with
  | [] => []
  | x :: l' => insert_sorted lt x (sorted lt l')
  end.

Definition get_snapshot (request : SortRequest) : M World (list Item.t) :=
  try_except
    (w <- get ;;
     match in_memory_store w with
     | [] => ret []
     | _ => ret (sorted (key_lt request) (in_memory_store w))
     end)
    (fun _ => raise (HTTPException 500 "Failed to retrieve snapshot")).

(** ** POST /remove *)

(** [item.id != request.id]: [None] differs from every integer. *)
Definition id_differs (x : Z) (item : Item.t) : bool :=
  match Item.id item with
  | Some i => negb (i =? x)
  | None => true
  end.

Definition remove_item (env : Env) (request : RemoveRequest.t)
  : M World ApiResponse.t :=
  let x := RemoveRequest.id request in
  call
    (try_except
       (w <- get ;;
        let original_count := List.length (in_memory_store (snd w)) in
        lift (modify (fun w => set_store
                                 (filter (id_differs x) (in_memory_store w))
                                 w)) ;;
        w1 <- get ;;
        when (Nat.eqb (List.length (in_memory_store (snd w1))) original_count)
          (raise (HTTPException 404 "Item not found in memory")) ;;
        db_available <- lift (test_db_connection (probe env)) ;;
        when db_available
          (try_finally
             (try_except
                (lift (get_db_connection (session env)) ;; assign_conn ;;
                 lift (driver DbCursor (cursor (session env))) ;;
                 assign_cur ;;
                 lift (driver (DbExecute "DELETE FROM items WHERE id = %s"
                                         (Some x))
                              (statement (session env))) ;;
                 lift (driver DbCommit (commit (session env))))
                (fun _ =>
                   local conn "conn" ;;
                   lift (driver DbRollback (rollback (session env)))))
             (local cur "cur" ;;
              lift (driver DbCursorClose (cursor_close (session env))) ;;
              local conn "conn" ;;
              lift (driver DbClose (close (session env))))) ;;
        lift (save_to_file env) ;;
        w2 <- get ;;
        ret (ApiResponse.mk "success"
               ("Item " ++ str_int x ++ " removed successfully")%string
               [("remaining_items"%string,
                 Some (Z.of_nat (List.length (in_memory_store (snd w2)))))]))
       (fun e =>
          match e with
          | HTTPException _ _ => raise e
          | _ => raise (HTTPException 500 "Failed to remove item")
          end)).

(** ** POST /clear *)

Definition clear_items (env : Env) : M World ApiResponse.t :=
  call
    (try_except
       (w <- get ;;
        let items_count := Z.of_nat (List.length (in_memory_store (snd w))) in
        lift (modify (set_store [])) ;;
        db_available <- lift (test_db_connection (probe env)) ;;
        when db_available
          (try_finally
             (try_except
                (lift (get_db_connection (session env)) ;; assign_conn ;;
                 lift (driver DbCursor (cursor (session env))) ;;
                 assign_cur ;;
                 lift (driver (DbExecute "TRUNCATE TABLE items RESTART IDENTITY"
                                         None)
                              (statement (session env))) ;;
                 lift (driver DbCommit (commit (session env))))
                (fun _ =>
                   local conn "conn" ;;
                   lift (driver DbRollback (rollback (session env)))))
             (local cur "cur" ;;
              lift (driver DbCursorClose (cursor_close (session env))) ;;
              local conn "conn" ;;
              lift (driver DbClose (close (session env))))) ;;
        lift (save_to_file env) ;;
        ret (ApiResponse.mk "success"
               ("All items cleared successfully (" ++ str_int items_count
                ++ " items removed)")%string
               [("items_cleared"%string, Some items_count)]))
       (fun _ => raise (HTTPException 500 "Failed to clear items"))).

(** ** GET /health *)

Module Health.
Record t : Type := mk
  { status : string; database : string; items_in_memory : Z;
    timestamp : string }.
End Health.

Definition health_check (env : Env) : M World Health.t :=
  db_available <- test_db_connection (probe env) ;;
  let db_status :=
    if db_available : bool then "connected"%string
    else "disconnected"%string in
  w <- get ;;
  ret (Health.mk "healthy" db_status
         (Z.of_nat (List.length (in_memory_store w))) (now env)).

(** ** Startup and shutdown *)

Definition startup_event : M World Datatypes.unit := load_from_file.
Definition shutdown_event (env : Env) : M World Datatypes.unit :=
  save_to_file env.

(** The process starts with an empty store and an empty trace. *)
Definition boot (f : file_state) : World :=
  {| in_memory_store := []; persistence_file := f; trace := [] |}.

(** * The vocabulary of the properties *)

(** ** The Registry *)

(** The items of the Registry went through the constructor of [Item]. *)
Definition Registry_ok (l : list Item.t) : Prop :=
  Forall (fun it => Item_ok it = true) l.

(** [item.id == x] *)
Definition has_id (x : Z) (item : Item.t) : bool := negb (id_differs x item).

(** How many items have the id [x]. *)
Definition count_id (x : Z) (l : list Item.t) : nat :=
  List.length (filter (has_id x) l).

(** One request of a client takes the world from [w] to [w']. *)
Inductive handles : World -> World -> Prop :=
| handles_add (env : Env) (request : AddItemRequest.t) (w : World) :
    AddItemRequest_ok request = true ->
    handles w (snd (add_item env request w))
| handles_snapshot (request : SortRequest) (w : World) :
    handles w (snd (get_snapshot request w))
| handles_remove (env : Env) (request : RemoveRequest.t) (w : World) :
    handles w (snd (remove_item env request w))
| handles_clear (env : Env) (w : World) :
    handles w (snd (clear_items env w)).

(** The worlds of a process started on the file [f]. *)
Inductive reachable (f : file_state) : World -> Prop :=
| reachable_startup : reachable f (snd (startup_event (boot f)))
| reachable_handles (w w' : World) :
    reachable f w -> handles w w' -> reachable f w'.

(** ** Duplicates *)

(** The spec's "cost within 0.01", with the tolerance taken in binary64 as
    the data model says. *)
Definition within_tolerance (x y : float) : Prop :=
  float_lt (float_abs (float_sub x y)) float_0_01 = true.

(** [item] has the (code, unit, age, cost) of [request]. *)
Definition same_fields (request : AddItemRequest.t) (item : Item.t) : Prop :=
  Item.code item = AddItemRequest.code request
  /\ Item.unit item = AddItemRequest.unit request
  /\ Item.age item = AddItemRequest.age request
  /\ within_tolerance (Item.cost item) (AddItemRequest.cost request).

(** The request duplicates no item of the Registry. *)
Definition no_same_fields (request : AddItemRequest.t) (w : World) : Prop :=
  forall item, In item (in_memory_store w) -> ~ same_fields request item.

(** The same, as [check_duplicate_in_memory] computes it. *)
Definition not_in_memory (request : AddItemRequest.t) (w : World) : Prop :=
  existsb (is_duplicate_of (AddItemRequest.code request)
                           (AddItemRequest.unit request)
                           (AddItemRequest.age request)
                           (AddItemRequest.cost request))
          (in_memory_store w) = false.

(** ** Responses and errors *)

Definition duplicate_error : exn :=
  HTTPException 400 "Duplicate item detected in memory store".

Definition not_found : exn := HTTPException 404 "Item not found in memory".

(** The item [add_item] builds from the request under the id [i]. *)
Definition item_with_id (i : option Z) (request : AddItemRequest.t) : Item.t :=
  Item.mk i (AddItemRequest.code request) (AddItemRequest.unit request)
          (AddItemRequest.age request) (AddItemRequest.cost request).

(** The response of an add that stored [item] and left the Registry [l]. *)
Definition added (message : string) (item : Item.t) (l : list Item.t)
  : ApiResponse.t :=
  ApiResponse.mk "success" message
    [("id"%string, Item.id item);
     ("total_items"%string, Some (Z.of_nat (List.length l)))].

(** The response of a remove of [x] that left the Registry [l]. *)
Definition removed (x : Z) (l : list Item.t) : ApiResponse.t :=
  ApiResponse.mk "success"
    ("Item " ++ str_int x ++ " removed successfully")%string
    [("remaining_items"%string, Some (Z.of_nat (List.length l)))].

(** The response of a clear of [n] items. *)
Definition cleared (n : Z) : ApiResponse.t :=
  ApiResponse.mk "success"
    ("All items cleared successfully (" ++ str_int n
     ++ " items removed)")%string
    [("items_cleared"%string, Some n)].

(** ** The world outside *)

(** [w'] differs from [w] by calls into the database driver only. *)
Definition only_database_calls (w w' : World) : Prop :=
  in_memory_store w' = in_memory_store w
  /\ persistence_file w' = persistence_file w
  /\ exists t, trace w' = trace w ++ t /\ forallb is_db_effect t = true.

(** The file after [save_to_file] ran on the Registry [l]. *)
Definition saved_file (env : Env) (l : list Item.t) (before : file_state)
  : file_state :=
  match write env with
  | WriteOk => FileDoc {| doc_items := Some (map Item_dict l);
                          doc_timestamp := now env |}
  | OpenRaises => before
  | DumpRaises => FileMalformed
  end.

(** The database part of [remove_item] and [clear_items] runs to its end:
    the connection and the cursor open, both close, and a failed statement
    or commit is followed by a rollback that works. *)
Definition session_completes (s : Session) : Prop :=
  connect s = None /\ cursor s = None
  /\ (statement s = None /\ commit s = None \/ rollback s = None)
  /\ cursor_close s = None /\ close s = None.

(** The probe returns false, or the database part runs to its end. *)
Definition database_step_completes (env : Env) (w : World) : Prop :=
  fst (test_db_connection (probe env) w) = Return false
  \/ session_completes (session env).

(** The calls recorded between [w] and a later world [w']. *)
Definition calls_since (w w' : World) : list effect :=
  skipn (List.length (trace w)) (trace w').

(** [env] with another outcome of the file write. *)
Definition with_write (wr : write_outcome) (env : Env) : Env :=
  {| probe := probe env; session := session env; now := now env;
     write := wr |}.

(** The entry [d] of a document passes the constraints of [Item]; the item
    it then gives. *)
Definition dict_ok (d : ItemDict.t) : bool :=
  Item_fields_ok (ItemDict.code d) (ItemDict.unit d) (ItemDict.age d)
                 (ItemDict.cost d).

Definition Item_from_dict (d : ItemDict.t) : Item.t :=
  Item.mk (ItemDict.id d) (ItemDict.code d) (ItemDict.unit d)
          (ItemDict.age d) (ItemDict.cost d).

(** The request [r2] asks for the (code, unit, age, cost) of [r1]. *)
Definition same_request_fields (r1 r2 : AddItemRequest.t) : Prop :=
  AddItemRequest.code r2 = AddItemRequest.code r1
  /\ AddItemRequest.unit r2 = AddItemRequest.unit r1
  /\ AddItemRequest.age r2 = AddItemRequest.age r1
  /\ AddItemRequest.cost r2 = AddItemRequest.cost r1.

(** +Infinity, which [json.loads] reads from [Infinity] and [ge=0] lets
    through. *)
Definition float_infinity : float := S754_infinity false.

(** ** Sorting *)

(** [x] and [y] have equal keys under [lt]: neither is smaller. *)
Definition same_key {A : Type} (lt : A -> A -> bool) (x y : A) : bool :=
  negb (lt x y) && negb (lt y x).

(** [getattr(x, sort_by) <= getattr(y, sort_by)] *)
Definition key_le (sort_by : SortRequest) (x y : Item.t) : Prop :=
  match sort_by with
  | sort_by_unit => Item.unit x <= Item.unit y
  | sort_by_age => Item.age x <= Item.age y
  | sort_by_cost => float_le (Item.cost x) (Item.cost y) = true
  end.

(** ** Example values *)

(** A decimal literal and the float it denotes: [f] is a binary64 number and
    no further from [num/den] than half a unit in its last place. *)
Definition rounds_to (num den : Z) (f : float) : Prop :=
  valid_binary prec emax f = true
  /\ match f with
     | S754_finite false m e =>
         e <= 0 /\ 2 * Z.abs (num * 2 ^ (- e) - Z.pos m * den) <= den
     | _ => False
     end.

(** The costs 10.00, 10.004 and 10.02 of the spec's example, and 0.5. *)
Definition cost_10_00 : float := S754_finite false 5629499534213120 (-49).
Definition cost_10_004 : float := S754_finite false 5631751334026805 (-49).
Definition cost_10_02 : float := S754_finite false 5640758533281546 (-49).
Definition cost_0_5 : float := S754_finite false 4503599627370496 (-53).

Definition item_A1 (i : option Z) : Item.t := Item.mk i "A1" 5 2 cost_10_00.

Definition request_A1 (i : Z) (x : float) : AddItemRequest.t :=
  AddItemRequest.mk i "A1" 5 2 x.

Definition three_items : list Item.t :=
  [Item.mk (Some 1) "A1" 5 2 cost_10_02;
   Item.mk (Some 2) "B7" 3 9 cost_0_5;
   Item.mk (Some 3) "C3" 5 1 cost_10_00].

Definition two_with_id_7 : list Item.t :=
  [Item.mk (Some 7) "A1" 5 2 cost_10_00; Item.mk (Some 7) "B7" 3 9 cost_0_5].

(** Sessions: a database that refuses the connection, one that answers every
    call, and one that loses the connection during [callproc]. *)
Definition refused : Session :=
  {| connect := Some (DriverError "connection refused");
     cursor := None; statement := None; fetchone := FetchNone;
     commit := None; rollback := None; cursor_close := None; close := None |}.

Definition answering (row : fetched) : Session :=
  {| connect := None; cursor := None; statement := None; fetchone := row;
     commit := None; rollback := None; cursor_close := None; close := None |}.

Definition insert_fails (message : string) : Session :=
  {| connect := None; cursor := None;
     statement := Some (DriverError message);
     fetchone := FetchNone; commit := None; rollback := None;
     cursor_close := None; close := None |}.

Definition env_database_down : Env :=
  {| probe := refused; session := refused;
     now := "2024-01-01T00:00:00"; write := WriteOk |}.

Definition env_database_up (row : fetched) : Env :=
  {| probe := answering FetchNone; session := answering row;
     now := "2024-01-01T00:00:00"; write := WriteOk |}.

(** The probe connects, then [callproc] raises a driver error. *)
Definition env_insert_fails : Env :=
  {| probe := answering FetchNone;
     session := insert_fails "server closed the connection unexpectedly";
     now := "2024-01-01T00:00:00"; write := WriteOk |}.

(** The probe connects, and the next connection attempt is refused. *)
Definition env_connection_lost : Env :=
  {| probe := answering FetchNone; session := refused;
     now := "2024-01-01T00:00:00"; write := WriteOk |}.

(** The insert is committed, then closing the cursor raises. *)
Definition cursor_close_fails : Session :=
  {| connect := None; cursor := None; statement := None;
     fetchone := FetchRow (Some 17) 1 "Item added";
     commit := None; rollback := None;
     cursor_close := Some (DriverError "cursor already closed");
     close := None |}.

Definition env_cursor_close_fails : Env :=
  {| probe := answering FetchNone; session := cursor_close_fails;
     now := "2024-01-01T00:00:00"; write := WriteOk |}.

(** A world with the Registry [l], no file and an empty trace; and one whose
    file holds [l] as an earlier save left it. *)
Definition world_of (l : list Item.t) : World :=
  {| in_memory_store := l; persistence_file := FileAbsent; trace := [] |}.

Definition persisted (l : list Item.t) : World :=
  {| in_memory_store := l;
     persistence_file :=
       FileDoc {| doc_items := Some (map Item_dict l);
                  doc_timestamp := "2023-12-31T23:59:59" |};
     trace := [] |}.

(** * Properties *)

(** ** The duplicate check and the spec's words for it *)

Lemma is_duplicate_of_same_fields (request : AddItemRequest.t) (item : Item.t) :
  is_duplicate_of (AddItemRequest.code request) (AddItemRequest.unit request)
                  (AddItemRequest.age request) (AddItemRequest.cost request)
                  item = true
  <-> same_fields request item.
Proof.
  unfold is_duplicate_of, same_fields, within_tolerance.
  rewrite !andb_true_iff, String.eqb_eq, !Z.eqb_eq. tauto.
Qed.

Lemma duplicate_found (request : AddItemRequest.t) (l : list Item.t) :
  (exists item, In item l /\ same_fields request item) ->
  existsb (is_duplicate_of (AddItemRequest.code request)
                           (AddItemRequest.unit request)
                           (AddItemRequest.age request)
                           (AddItemRequest.cost request)) l = true.
Proof.
  intros [item [Hin Hsame]]. apply existsb_exists. exists item. split.
  - exact Hin.
  - now apply is_duplicate_of_same_fields.
Qed.

Lemma duplicate_not_found (request : AddItemRequest.t) (l : list Item.t) :
  (forall item, In item l -> ~ same_fields request item) ->
  existsb (is_duplicate_of (AddItemRequest.code request)
                           (AddItemRequest.unit request)
                           (AddItemRequest.age request)
                           (AddItemRequest.cost request)) l = false.
Proof.
  intros Hno. apply not_true_is_false. intros Hex.
  apply existsb_exists in Hex. destruct Hex as [item [Hin Hdup]].
  apply (Hno item Hin). now apply is_duplicate_of_same_fields.
Qed.

(** ** Reduction by cases on the environment *)

Ltac reduce :=
  cbv beta iota zeta delta
    [add_item remove_item clear_items get_snapshot save_to_file load_from_file
     startup_event shutdown_event
     check_duplicate_in_memory call_stored_procedure test_db_connection
     get_db_connection driver of_result item_of_request Item_new
     bind ret raise try_except try_finally get modify call lift when
     in_locals local assign_conn assign_cur no_locals exn_of_raised
     set_store set_file record_effect
     in_memory_store persistence_file trace conn cur
     connect cursor statement fetchone commit rollback cursor_close close
     probe session now write fst snd
     AddItemRequest.id AddItemRequest.code AddItemRequest.unit
     AddItemRequest.age AddItemRequest.cost RemoveRequest.id].

Ltac split_case :=
  match goal with
  | |- context [match ?x with _ => _ end] => is_var x; destruct x
  end.

Ltac crunch := reduce; repeat (split_case; reduce).

Ltac database_calls :=
  repeat split; try reflexivity;
  cbv beta iota delta [in_memory_store persistence_file trace];
  repeat rewrite <- app_assoc;
  first [ eexists; split; [ reflexivity | reflexivity ]
        | exists []; split; [ now rewrite app_nil_r | reflexivity ] ].

Lemma test_db_connection_world (s : Session) (w : World) :
  only_database_calls w (snd (test_db_connection s w)).
Proof.
  destruct s, w. crunch; database_calls.
Qed.

Lemma test_db_connection_returns (s : Session) (w : World) :
  exists b, fst (test_db_connection s w) = Return b.
Proof.
  destruct s, w. crunch; eexists; reflexivity.
Qed.

Lemma test_db_connection_env (s : Session) (w w' : World) :
  fst (test_db_connection s w) = fst (test_db_connection s w').
Proof.
  destruct s, w, w'. crunch; reflexivity.
Qed.

Lemma call_stored_procedure_world (s : Session) (c : string) (u a : Z)
  (x : float) (w : World) :
  only_database_calls w (snd (call_stored_procedure s c u a x w)).
Proof.
  destruct s, w. crunch; database_calls.
Qed.

Lemma call_stored_procedure_env (s : Session) (c : string) (u a : Z)
  (x : float) (w w' : World) :
  fst (call_stored_procedure s c u a x w)
  = fst (call_stored_procedure s c u a x w').
Proof.
  destruct s, w, w'. crunch; reflexivity.
Qed.

(** ** Adding: the two ways to succeed *)

Lemma add_item_database_down (env : Env) (request : AddItemRequest.t)
  (w : World) :
  AddItemRequest_ok request = true ->
  not_in_memory request w ->
  fst (test_db_connection (probe env) w) = Return false ->
  let item := item_with_id (Some (AddItemRequest.id request)) request in
  let l := in_memory_store w ++ [item] in
  add_item env request w
  = (Return (added memory_only_message item l),
     {| in_memory_store := l;
        persistence_file := saved_file env l (persistence_file w);
        trace := trace (snd (test_db_connection (probe env) w))
                 ++ [FileWrite] |}).
Proof.
  unfold AddItemRequest_ok, not_in_memory, saved_file, added, item_with_id.
  destruct request as [i c u a x], env as [p s n wr], p, w as [l f tr].
  cbn [AddItemRequest.id AddItemRequest.code AddItemRequest.unit
       AddItemRequest.age AddItemRequest.cost in_memory_store
       persistence_file trace probe write now].
  intros Hok Hdup. reduce. rewrite Hdup, Hok.
  repeat (split_case; reduce); intros Hprobe; try discriminate Hprobe;
    reflexivity.
Qed.

Ltac split_status :=
  match goal with
  | |- context [?z =? 0] => destruct (z =? 0)
  end.

(** With the database reachable, the outcome of [add_item] follows what
    [call_stored_procedure] gives: a row with status 0 is a client error, any
    other row is stored under the id of the row, an [HTTPException] goes
    through, and any other exception ends in memory-only mode. *)
Lemma add_item_database_up (env : Env) (request : AddItemRequest.t)
  (w : World) :
  AddItemRequest_ok request = true ->
  not_in_memory request w ->
  fst (test_db_connection (probe env) w) = Return true ->
  let w1 := snd (test_db_connection (probe env) w) in
  let insert :=
    call_stored_procedure (session env)
      (AddItemRequest.code request) (AddItemRequest.unit request)
      (AddItemRequest.age request) (AddItemRequest.cost request) w1 in
  let w2 := snd insert in
  let stored (message : string) (item : Item.t) :=
    let l := in_memory_store w ++ [item] in
    (Return (added message item l),
     {| in_memory_store := l;
        persistence_file := saved_file env l (persistence_file w);
        trace := trace w2 ++ [FileWrite] |}) in
  add_item env request w
  = match fst insert with
    | Return (row_id, status, message) =>
        if status =? 0 then (Raise (HTTPException 400 message), w2)
        else stored message (item_with_id row_id request)
    | Raise (HTTPException c d) => (Raise (HTTPException c d), w2)
    | Raise _ =>
        stored memory_only_message
               (item_with_id (Some (AddItemRequest.id request)) request)
    end.
Proof.
  unfold AddItemRequest_ok, not_in_memory, saved_file, added, item_with_id.
  destruct request as [i c u a x], env as [p s n wr], p, s, w as [l f tr].
  cbn [AddItemRequest.id AddItemRequest.code AddItemRequest.unit
       AddItemRequest.age AddItemRequest.cost in_memory_store
       persistence_file trace probe write now].
  intros Hok Hdup. reduce. rewrite Hdup, Hok.
  repeat (first [ split_case | split_status ]; reduce);
    intros Hprobe; try discriminate Hprobe; reflexivity.
Qed.

(** The floats of the examples are the decimal literals, correctly rounded. *)
Lemma literals :
  rounds_to 1 100 float_0_01 /\ rounds_to 10 1 cost_10_00
  /\ rounds_to 10004 1000 cost_10_004 /\ rounds_to 1002 100 cost_10_02
  /\ rounds_to 1 2 cost_0_5.
Proof.
  unfold rounds_to; repeat split; try reflexivity; try (cbn; lia).
Qed.

(** ** C1: a failed insert after a successful probe *)

(** A driver error in [callproc] leaves [call_stored_procedure] as an
    [HTTPException] with status 500, when the rollback and the closes work. *)
Lemma call_stored_procedure_driver_error (s : Session) (c : string) (u a : Z)
  (x : float) (w : World) (m : string) :
  connect s = None -> cursor s = None -> statement s = Some (DriverError m) ->
  rollback s = None -> cursor_close s = None -> close s = None ->
  fst (call_stored_procedure s c u a x w)
  = Raise (HTTPException 500 ("Database error: " ++ m)%string).
Proof.
  destruct s, w.
  cbn [connect cursor statement rollback cursor_close close].
  intros -> -> -> -> -> ->. reflexivity.
Qed.

(** In every such environment the request fails, whatever it asks to add. *)
Lemma add_item_insert_driver_error (env : Env) (request : AddItemRequest.t)
  (w : World) (m : string) :
  no_same_fields request w ->
  fst (test_db_connection (probe env) w) = Return true ->
  connect (session env) = None -> cursor (session env) = None ->
  statement (session env) = Some (DriverError m) ->
  rollback (session env) = None ->
  cursor_close (session env) = None -> close (session env) = None ->
  exists w',
    add_item env request w
    = (Raise (HTTPException 500 ("Database error: " ++ m)%string), w')
    /\ only_database_calls w w'.
Proof.
  intros Hno. apply duplicate_not_found in Hno. revert Hno.
  destruct request as [i c u a x], env as [p s n wr],
    p as [pc pcu pst pf pcm prb pcc pcl],
    s as [sc scu sst sf scm srb scc scl], w as [l f tr].
  cbn [AddItemRequest.id AddItemRequest.code AddItemRequest.unit
       AddItemRequest.age AddItemRequest.cost in_memory_store
       persistence_file trace probe session
       connect cursor statement rollback cursor_close close].
  intros Hdup Hprobe -> -> -> -> -> ->. revert Hprobe.
  reduce. rewrite Hdup.
  repeat (split_case; reduce); intros Hprobe; try discriminate Hprobe.
  all: eexists; split; [ reflexivity | ]; database_calls.
Qed.

(** C1 (the code departs from the claim): the probe succeeds, then
    [cur.callproc] raises a driver error.  [call_stored_procedure] wraps the
    error into an [HTTPException] with status 500, which [add_item] re-raises
    before its memory-only fallback is reached: the request fails, the
    Registry stays empty and the File Store is not written. *)
Theorem C1_insert_driver_error_fails_the_request :
  add_item env_insert_fails (request_A1 1 cost_10_00) (world_of [])
  = (Raise (HTTPException 500
       "Database error: server closed the connection unexpectedly"),
     {| in_memory_store := [];
        persistence_file := FileAbsent;
        trace := [DbConnect; DbClose; DbConnect; DbCursor;
                  DbCallproc "add_call" "A1" 5 2 cost_10_00;
                  DbRollback; DbCursorClose; DbClose] |}).
Proof. reflexivity. Qed.

(** ** C2: duplicates *)

(** C2: when the Registry holds an item with the code, unit and age of the
    request and a cost within 0.01 of the request's, the add is rejected with
    the 400 duplicate error and the world (Registry, File Store, trace) is as
    before.  Against a Registry holding A1/5/2/10.00, cost 10.004 is rejected;
    cost 10.02 passes the duplicate check, and the add succeeds both when the
    database is down and when the stored procedure accepts the row. *)
Theorem C2_duplicate_add_rejected :
  (forall (env : Env) (request : AddItemRequest.t) (w : World),
      (exists item, In item (in_memory_store w) /\ same_fields request item) ->
      add_item env request w = (Raise duplicate_error, w))
  /\ (forall (env : Env) (i : option Z) (j : Z) (w : World),
         in_memory_store w = [item_A1 i] ->
         add_item env (request_A1 j cost_10_004) w = (Raise duplicate_error, w))
  /\ (forall (env : Env) (i : option Z) (j : Z) (w : World),
         in_memory_store w = [item_A1 i] ->
         let request := request_A1 j cost_10_02 in
         fst (check_duplicate_in_memory "A1" 5 2 cost_10_02 w) = Return false
         /\ (fst (test_db_connection (probe env) w) = Return false ->
             let item := item_with_id (Some j) request in
             exists w',
               add_item env request w
               = (Return (added memory_only_message item [item_A1 i; item]),
                  w')
               /\ in_memory_store w' = [item_A1 i; item])
         /\ (forall (row_id : option Z) (status : Z) (message : string),
                fst (test_db_connection (probe env) w) = Return true ->
                fst (call_stored_procedure (session env) "A1" 5 2 cost_10_02
                       (snd (test_db_connection (probe env) w)))
                = Return (row_id, status, message) ->
                status <> 0 ->
                let item := item_with_id row_id request in
                exists w',
                  add_item env request w
                  = (Return (added message item [item_A1 i; item]), w')
                  /\ in_memory_store w' = [item_A1 i; item])).
Proof.
  assert (Hdup : forall env request w,
             (exists item, In item (in_memory_store w)
                           /\ same_fields request item) ->
             add_item env request w = (Raise duplicate_error, w)).
  { intros env request w H. apply duplicate_found in H.
    destruct request, w.
    cbn [AddItemRequest.code AddItemRequest.unit AddItemRequest.age
         AddItemRequest.cost in_memory_store] in H.
    reduce. rewrite H. reflexivity. }
  split; [ exact Hdup | split ].
  - intros env i j w Hw. apply Hdup. exists (item_A1 i). split.
    + rewrite Hw. now left.
    + repeat split.
  - intros env i j w Hw request.
    assert (Hno : not_in_memory request w).
    { unfold not_in_memory. rewrite Hw. reflexivity. }
    split; [ | split ].
    + destruct w. cbn in Hw. subst. reflexivity.
    + intros Hprobe item.
      rewrite (add_item_database_down env request w eq_refl Hno Hprobe).
      rewrite Hw. eexists. split; reflexivity.
    + intros row_id status message Hprobe Hrow Hstatus item.
      rewrite (add_item_database_up env request w eq_refl Hno Hprobe).
      cbv zeta. cbn [AddItemRequest.code AddItemRequest.unit
                     AddItemRequest.age AddItemRequest.cost request
                     request_A1].
      rewrite Hrow. apply Z.eqb_neq in Hstatus. rewrite Hstatus, Hw.
      eexists. split; reflexivity.
Qed.

Lemma C2_duplicate_add_rejected_witness :
  (exists item,
      In item (in_memory_store (world_of [item_A1 (Some 1)]))
      /\ same_fields (request_A1 2 cost_10_004) item)
  /\ add_item env_database_down (request_A1 2 cost_10_004)
              (world_of [item_A1 (Some 1)])
     = (Raise duplicate_error, world_of [item_A1 (Some 1)]).
Proof.
  assert (H : exists item,
             In item (in_memory_store (world_of [item_A1 (Some 1)]))
             /\ same_fields (request_A1 2 cost_10_004) item).
  { exists (item_A1 (Some 1)). split; [ now left | repeat split ]. }
  split.
  - exact H.
  - exact (proj1 C2_duplicate_add_rejected env_database_down
                 (request_A1 2 cost_10_004) (world_of [item_A1 (Some 1)]) H).
Defined.

(** ** C6: adding while the database is unreachable *)

(** C6: a validated request that duplicates no item of the Registry, issued
    while the probe returns false, is answered with success and no exception:
    the Item carries the id the client sent, it is appended to the Registry,
    [save_to_file] runs on the new Registry (so a write that works leaves the
    new Registry in the File Store), and the response holds that id, the new
    count and the memory-only message.  The stored procedure is not called:
    the trace grows by the probe's calls and the file write. *)
Theorem C6_add_succeeds_memory_only_when_database_down
  (env : Env) (request : AddItemRequest.t) (w : World) :
  AddItemRequest_ok request = true ->
  no_same_fields request w ->
  fst (test_db_connection (probe env) w) = Return false ->
  let item := Item.mk (Some (AddItemRequest.id request))
                (AddItemRequest.code request) (AddItemRequest.unit request)
                (AddItemRequest.age request) (AddItemRequest.cost request) in
  let l := in_memory_store w ++ [item] in
  exists w',
    add_item env request w
    = (Return (ApiResponse.mk "success"
                 "Item added to memory only (database unavailable)"
                 [("id"%string, Some (AddItemRequest.id request));
                  ("total_items"%string,
                   Some (Z.of_nat (List.length (in_memory_store w)) + 1))]),
       w')
    /\ in_memory_store w' = l
    /\ trace w' = trace (snd (test_db_connection (probe env) w)) ++ [FileWrite]
    /\ (write env = WriteOk ->
        persistence_file w'
        = FileDoc {| doc_items := Some (map Item_dict l);
                     doc_timestamp := now env |}).
Proof.
  intros Hok Hno Hprobe item l.
  apply duplicate_not_found in Hno.
  rewrite (add_item_database_down env request w Hok Hno Hprobe).
  eexists. split; [ | split; [ | split ] ].
  - unfold added, memory_only_message. cbn [Item.id item_with_id].
    rewrite length_app, Nat2Z.inj_add. reflexivity.
  - reflexivity.
  - reflexivity.
  - intros Hwrite. cbn [persistence_file]. unfold saved_file.
    rewrite Hwrite. reflexivity.
Qed.

Lemma C6_add_succeeds_memory_only_when_database_down_witness :
  exists w',
    add_item env_database_down (request_A1 2 cost_10_02)
             (world_of [item_A1 (Some 1)])
    = (Return (ApiResponse.mk "success"
                 "Item added to memory only (database unavailable)"
                 [("id"%string, Some 2); ("total_items"%string, Some 2)]),
       w')
    /\ in_memory_store w'
       = [item_A1 (Some 1); Item.mk (Some 2) "A1" 5 2 cost_10_02]
    /\ trace w' = [DbConnect; FileWrite]
    /\ (WriteOk = WriteOk ->
        persistence_file w'
        = FileDoc
            {| doc_items :=
                 Some [ItemDict.mk (Some 1) "A1" 5 2 cost_10_00;
                       ItemDict.mk (Some 2) "A1" 5 2 cost_10_02];
               doc_timestamp := "2024-01-01T00:00:00" |}).
Proof.
  refine (C6_add_succeeds_memory_only_when_database_down
            env_database_down (request_A1 2 cost_10_02)
            (world_of [item_A1 (Some 1)]) eq_refl _ eq_refl).
  intros item [<- | []] [_ [_ [_ H]]]. discriminate H.
Defined.

(** ** C7: the stored procedure rejects the row *)

(** C7: when the request duplicates nothing in the Registry, the probe
    returns true and the stored procedure returns a row with status 0, the
    request fails with a 400 error whose detail is the procedure's message;
    the Registry and the File Store are as before, and the request made
    database calls only (no file write). *)
Theorem C7_rejected_insert_is_client_error
  (env : Env) (request : AddItemRequest.t) (w : World)
  (row_id : option Z) (message : string) :
  no_same_fields request w ->
  fst (test_db_connection (probe env) w) = Return true ->
  fst (call_stored_procedure (session env)
         (AddItemRequest.code request) (AddItemRequest.unit request)
         (AddItemRequest.age request) (AddItemRequest.cost request)
         (snd (test_db_connection (probe env) w)))
  = Return (row_id, 0, message) ->
  exists w',
    add_item env request w = (Raise (HTTPException 400 message), w')
    /\ in_memory_store w' = in_memory_store w
    /\ persistence_file w' = persistence_file w
    /\ exists t, trace w' = trace w ++ t /\ forallb is_db_effect t = true.
Proof.
  intros Hno. apply duplicate_not_found in Hno. revert Hno.
  destruct request as [i c u a x], env as [p s n wr], p, s, w as [l f tr].
  cbn [AddItemRequest.id AddItemRequest.code AddItemRequest.unit
       AddItemRequest.age AddItemRequest.cost in_memory_store
       persistence_file trace probe session].
  intros Hdup. reduce. rewrite Hdup.
  repeat (split_case; reduce);
    intros Hprobe Hrow; try discriminate Hprobe; try discriminate Hrow.
  all: injection Hrow as -> -> ->; change (0 =? 0) with true; reduce.
  all: eexists; split; [ reflexivity | ]; database_calls.
Qed.

Lemma C7_rejected_insert_is_client_error_witness :
  exists w',
    add_item (env_database_up (FetchRow None 0 "Item already exists"))
             (request_A1 2 cost_10_02) (world_of [item_A1 (Some 1)])
    = (Raise (HTTPException 400 "Item already exists"), w')
    /\ in_memory_store w' = [item_A1 (Some 1)]
    /\ persistence_file w' = FileAbsent
    /\ exists t, trace w' = [] ++ t /\ forallb is_db_effect t = true.
Proof.
  refine (C7_rejected_insert_is_client_error
            (env_database_up (FetchRow None 0 "Item already exists"))
            (request_A1 2 cost_10_02) (world_of [item_A1 (Some 1)])
            None "Item already exists" _ eq_refl eq_refl).
  intros item [<- | []] [_ [_ [_ H]]]. discriminate H.
Defined.

(** ** The built-in [sorted] *)

Section Sorting.
Context {A : Type}.
Variable lt : A -> A -> bool.

Lemma insert_sorted_Permutation (x : A) (l : list A) :
  Permutation (x :: l) (insert_sorted lt x l).
Proof.
  induction l as [| y l IH]; cbn.
  - apply Permutation_refl.
  - destruct (lt y x).
    + eapply perm_trans; [ apply perm_swap | now apply perm_skip ].
    + apply Permutation_refl.
Qed.

Lemma sorted_Permutation (l : list A) : Permutation l (sorted lt l).
Proof.
  induction l as [| x l IH]; cbn.
  - apply perm_nil.
  - eapply perm_trans; [ apply perm_skip, IH | ].
    apply insert_sorted_Permutation.
Qed.

Lemma sorted_In (x : A) (l : list A) : In x (sorted lt l) <-> In x l.
Proof.
  split; apply Permutation_in.
  - apply Permutation_sym, sorted_Permutation.
  - apply sorted_Permutation.
Qed.

(** What the order has to satisfy, on the elements that can occur. *)
Variable ok : A -> Prop.
Variable le : A -> A -> Prop.

Hypothesis lt_le : forall x y, lt x y = true -> le x y.
Hypothesis not_lt_le : forall x y, ok x -> ok y -> lt y x = false -> le x y.
Hypothesis same_key_lt :
  forall x y z, ok x -> ok y -> ok z ->
                same_key lt z x = true -> same_key lt z y = true ->
                lt y x = false.

Lemma insert_sorted_HdRel (a x : A) (l : list A) :
  le a x -> HdRel le a l -> HdRel le a (insert_sorted lt x l).
Proof.
  intros Hax Hl. destruct l as [| y l]; cbn.
  - now constructor.
  - inversion Hl; subst. destruct (lt y x); now constructor.
Qed.

Lemma insert_sorted_Sorted (x : A) (l : list A) :
  ok x -> Forall ok l -> Sorted le l -> Sorted le (insert_sorted lt x l).
Proof.
  intros Hx Hok Hl. induction l as [| y l IH]; cbn.
  - repeat constructor.
  - inversion Hl; subst. inversion Hok; subst.
    destruct (lt y x) eqn:Hyx.
    + constructor.
      * now apply IH.
      * apply insert_sorted_HdRel; [ now apply lt_le | assumption ].
    + constructor; [ assumption | ].
      constructor. now apply not_lt_le.
Qed.

Lemma insert_sorted_Forall (x : A) (l : list A) :
  ok x -> Forall ok l -> Forall ok (insert_sorted lt x l).
Proof.
  intros Hx Hl.
  apply (Permutation_Forall (insert_sorted_Permutation x l)).
  now constructor.
Qed.

Lemma sorted_Forall (l : list A) : Forall ok l -> Forall ok (sorted lt l).
Proof. apply Permutation_Forall, sorted_Permutation. Qed.

Lemma sorted_Sorted (l : list A) : Forall ok l -> Sorted le (sorted lt l).
Proof.
  induction l as [| x l IH]; cbn; intros Hok.
  - constructor.
  - inversion Hok; subst.
    apply insert_sorted_Sorted; auto using sorted_Forall.
Qed.

(** Stability: the elements with the key of [z] keep their order. *)
Lemma insert_sorted_stable (z x : A) (l : list A) :
  ok z -> ok x -> Forall ok l ->
  filter (same_key lt z) (insert_sorted lt x l)
  = filter (same_key lt z) (x :: l).
Proof.
  intros Hz Hx Hl. induction l as [| y l IH]; [ reflexivity | ].
  inversion Hl; subst.
  cbn [insert_sorted]. destruct (lt y x) eqn:Hyx; [ | reflexivity ].
  cbn [filter] in *. rewrite IH by assumption.
  destruct (same_key lt z x) eqn:Hzx, (same_key lt z y) eqn:Hzy;
    try reflexivity.
  rewrite (same_key_lt x y z) in Hyx by assumption. discriminate Hyx.
Qed.

Lemma sorted_stable (z : A) (l : list A) :
  ok z -> Forall ok l ->
  filter (same_key lt z) (sorted lt l) = filter (same_key lt z) l.
Proof.
  intros Hz Hl. induction l as [| x l IH]; [ reflexivity | ].
  inversion Hl; subst. cbn [sorted].
  rewrite insert_sorted_stable by auto using sorted_Forall.
  cbn [filter]. now rewrite IH.
Qed.
End Sorting.

(** ** The order of the keys *)

(** A cost that passes [ge=0] is a zero, a positive number or +infinity. *)
Lemma cost_ok_cases (x : float) :
  float_le float_zero x = true ->
  (exists s, x = S754_zero s) \/ x = S754_infinity false
  \/ exists m e, x = S754_finite false m e.
Proof.
  destruct x as [s | [|] | | [|] m e]; cbn; intros H; try discriminate H.
  - left. now exists s.
  - right. now left.
  - right. right. now exists m, e.
Qed.

Ltac float_cases H :=
  apply cost_ok_cases in H;
  destruct H as [[? ->] | [-> | [? [? ->]]]].

Ltac compare_cases :=
  cbv [float_lt float_le SFltb SFleb SFcompare];
  change (Pos.compare_cont Eq) with Pos.compare;
  repeat match goal with
    | |- context [Z.compare ?a ?b] => destruct (Z.compare_spec a b)
    | |- context [Pos.compare ?a ?b] => destruct (Pos.compare_spec a b)
    end;
  try reflexivity; try discriminate; try lia.

Lemma float_lt_le (x y : float) : float_lt x y = true -> float_le x y = true.
Proof.
  unfold float_lt, float_le, SFltb, SFleb.
  destruct (SFcompare x y) as [[| |] |]; intros H; try discriminate H;
    reflexivity.
Qed.

Lemma float_not_lt_le (x y : float) :
  float_le float_zero x = true -> float_le float_zero y = true ->
  float_lt y x = false -> float_le x y = true.
Proof.
  intros Hx Hy. float_cases Hx; float_cases Hy; compare_cases.
Qed.

Lemma float_same_key_lt (x y z : float) :
  float_le float_zero x = true -> float_le float_zero y = true ->
  float_le float_zero z = true ->
  negb (float_lt z x) && negb (float_lt x z) = true ->
  negb (float_lt z y) && negb (float_lt y z) = true ->
  float_lt y x = false.
Proof.
  intros Hx Hy Hz.
  float_cases Hx; float_cases Hy; float_cases Hz; compare_cases.
Qed.

Lemma Item_ok_cost (it : Item.t) :
  Item_ok it = true -> float_le float_zero (Item.cost it) = true.
Proof.
  unfold Item_ok, Item_fields_ok. rewrite !andb_true_iff. tauto.
Qed.

Lemma key_lt_le (sort_by : SortRequest) (x y : Item.t) :
  key_lt sort_by x y = true -> key_le sort_by x y.
Proof.
  destruct sort_by; cbn; intros H.
  - apply Z.ltb_lt in H. lia.
  - apply Z.ltb_lt in H. lia.
  - now apply float_lt_le.
Qed.

Lemma key_not_lt_le (sort_by : SortRequest) (x y : Item.t) :
  Item_ok x = true -> Item_ok y = true ->
  key_lt sort_by y x = false -> key_le sort_by x y.
Proof.
  intros Hx Hy. destruct sort_by; cbn; intros H.
  - apply Z.ltb_ge in H. exact H.
  - apply Z.ltb_ge in H. exact H.
  - apply float_not_lt_le; auto using Item_ok_cost.
Qed.

Lemma key_same_key_lt (sort_by : SortRequest) (x y z : Item.t) :
  Item_ok x = true -> Item_ok y = true -> Item_ok z = true ->
  same_key (key_lt sort_by) z x = true ->
  same_key (key_lt sort_by) z y = true ->
  key_lt sort_by y x = false.
Proof.
  intros Hx Hy Hz. unfold same_key. destruct sort_by; cbn.
  - rewrite !andb_true_iff, !negb_true_iff, !Z.ltb_ge. lia.
  - rewrite !andb_true_iff, !negb_true_iff, !Z.ltb_ge. lia.
  - apply float_same_key_lt; auto using Item_ok_cost.
Qed.

Lemma get_snapshot_run (request : SortRequest) (w : World) :
  get_snapshot request w
  = (Return (sorted (key_lt request) (in_memory_store w)), w).
Proof.
  destruct w as [[| item l] f tr]; reflexivity.
Qed.

(** ** C4: snapshot *)

(** C4: for a Registry of validated items and each of the three sort fields,
    [get_snapshot] returns a permutation of the Registry that is
    non-decreasing in the field; the items whose key equals that of any given
    Registry item come in their Registry order; the empty Registry gives the
    empty list; and the world after the call is the world before it (same
    Registry, same File Store, and no call recorded). *)
Theorem C4_snapshot_is_stable_sorted_permutation
  (request : SortRequest) (w : World) :
  Registry_ok (in_memory_store w) ->
  exists snapshot,
    get_snapshot request w = (Return snapshot, w)
    /\ Permutation (in_memory_store w) snapshot
    /\ Sorted (key_le request) snapshot
    /\ (forall z, In z (in_memory_store w) ->
                  filter (same_key (key_lt request) z) snapshot
                  = filter (same_key (key_lt request) z) (in_memory_store w))
    /\ (in_memory_store w = [] -> snapshot = []).
Proof.
  intros Hok. exists (sorted (key_lt request) (in_memory_store w)).
  split; [ apply get_snapshot_run | split; [ | split; [ | split ] ] ].
  - apply sorted_Permutation.
  - apply (sorted_Sorted (key_lt request) (fun it => Item_ok it = true)).
    + apply key_lt_le.
    + apply key_not_lt_le.
    + exact Hok.
  - intros z Hz.
    apply (sorted_stable (key_lt request) (fun it => Item_ok it = true)).
    + apply key_same_key_lt.
    + unfold Registry_ok in Hok. rewrite Forall_forall in Hok. now apply Hok.
    + exact Hok.
  - intros ->. reflexivity.
Qed.

Lemma C4_snapshot_is_stable_sorted_permutation_witness :
  exists snapshot,
    get_snapshot sort_by_unit (world_of three_items)
    = (Return snapshot, world_of three_items)
    /\ Permutation three_items snapshot
    /\ Sorted (key_le sort_by_unit) snapshot
    /\ (forall z, In z three_items ->
                  filter (same_key (key_lt sort_by_unit) z) snapshot
                  = filter (same_key (key_lt sort_by_unit) z) three_items)
    /\ (three_items = [] -> snapshot = []).
Proof.
  refine (C4_snapshot_is_stable_sorted_permutation
            sort_by_unit (world_of three_items) _).
  repeat constructor.
Defined.

Example snapshot_by_unit :
  fst (get_snapshot sort_by_unit (world_of three_items))
  = Return [Item.mk (Some 2) "B7" 3 9 cost_0_5;
            Item.mk (Some 1) "A1" 5 2 cost_10_02;
            Item.mk (Some 3) "C3" 5 1 cost_10_00].
Proof. reflexivity. Qed.

Example snapshot_by_cost :
  fst (get_snapshot sort_by_cost (world_of three_items))
  = Return [Item.mk (Some 2) "B7" 3 9 cost_0_5;
            Item.mk (Some 3) "C3" 5 1 cost_10_00;
            Item.mk (Some 1) "A1" 5 2 cost_10_02].
Proof. reflexivity. Qed.

(** ** Removing *)

Lemma has_id_iff (x : Z) (item : Item.t) :
  has_id x item = true <-> Item.id item = Some x.
Proof.
  unfold has_id, id_differs. destruct (Item.id item) as [i |]; cbn.
  - rewrite negb_involutive, Z.eqb_eq. split; congruence.
  - split; discriminate.
Qed.

Lemma id_differs_iff (x : Z) (item : Item.t) :
  id_differs x item = true <-> Item.id item <> Some x.
Proof.
  rewrite <- has_id_iff. unfold has_id.
  destruct (id_differs x item); cbn; split; congruence.
Qed.

Lemma filter_id_differs_length (x : Z) (l : list Item.t) :
  (List.length (filter (id_differs x) l) + count_id x l = List.length l)%nat.
Proof.
  unfold count_id, has_id. induction l as [| item l IH]; cbn.
  - reflexivity.
  - destruct (id_differs x item); cbn; lia.
Qed.

Lemma count_id_present (x : Z) (l : list Item.t) :
  (exists item, In item l /\ Item.id item = Some x) <->
  (1 <= count_id x l)%nat.
Proof.
  unfold count_id. split.
  - intros [item [Hin Hid]]. apply has_id_iff in Hid.
    assert (H : In item (filter (has_id x) l)) by now apply filter_In.
    destruct (filter (has_id x) l); [ contradiction | cbn; lia ].
  - intros H. destruct (filter (has_id x) l) as [| item l'] eqn:E.
    + cbn in H. lia.
    + assert (Hin : In item (filter (has_id x) l)) by (rewrite E; now left).
      apply filter_In in Hin. exists item.
      split; [ tauto | now apply has_id_iff ].
Qed.

Lemma filter_id_differs_absent (x : Z) (l : list Item.t) :
  (forall item, In item l -> Item.id item <> Some x) ->
  filter (id_differs x) l = l.
Proof.
  intros H. induction l as [| item l IH]; cbn.
  - reflexivity.
  - rewrite (proj2 (id_differs_iff x item)) by (apply H; now left).
    f_equal. apply IH. intros it Hit. apply H. now right.
Qed.

Lemma filter_id_differs_gone (x : Z) (l : list Item.t) (item : Item.t) :
  In item (filter (id_differs x) l) -> Item.id item <> Some x.
Proof.
  intros H. apply filter_In in H. now apply id_differs_iff.
Qed.

Lemma remove_item_absent (env : Env) (x : Z) (w : World) :
  filter (id_differs x) (in_memory_store w) = in_memory_store w ->
  remove_item env (RemoveRequest.mk x) w = (Raise not_found, w).
Proof.
  destruct w as [l f tr]. cbn [in_memory_store]. intros H.
  reduce. rewrite H, Nat.eqb_refl. reflexivity.
Qed.

Lemma remove_item_present (env : Env) (x : Z) (w : World) :
  (1 <= count_id x (in_memory_store w))%nat ->
  database_step_completes env w ->
  let l := filter (id_differs x) (in_memory_store w) in
  exists w',
    remove_item env (RemoveRequest.mk x) w = (Return (removed x l), w')
    /\ in_memory_store w' = l
    /\ persistence_file w' = saved_file env l (persistence_file w).
Proof.
  intros Hcount.
  assert (Hlen : Nat.eqb (List.length (filter (id_differs x)
                                              (in_memory_store w)))
                         (List.length (in_memory_store w)) = false).
  { apply Nat.eqb_neq. pose proof (filter_id_differs_length x
                                     (in_memory_store w)). lia. }
  clear Hcount. revert Hlen.
  unfold database_step_completes, session_completes, saved_file, removed.
  destruct env as [p s n wr], p as [pc pcu pst pf pcm prb pcc pcl],
    s as [sc scu sst sf scm srb scc scl], w as [l f tr].
  cbn [in_memory_store persistence_file trace probe session write now
       connect cursor statement commit rollback cursor_close close].
  intros Hlen Hdb. reduce. rewrite Hlen. revert Hdb. reduce.
  repeat (split_case; reduce);
    intros [Hprobe | [Hc [Hcu [Hst [Hcc Hcl]]]]];
    try discriminate;
    try (destruct Hst as [[Hs Hcm] | Hrb]; discriminate);
    eexists; (split; [ reflexivity | split; reflexivity ]).
Qed.

Lemma remove_item_store (env : Env) (request : RemoveRequest.t) (w : World) :
  in_memory_store (snd (remove_item env request w))
  = filter (id_differs (RemoveRequest.id request)) (in_memory_store w).
Proof.
  destruct request as [x], env as [p s n wr],
    p as [pc pcu pst pf pcm prb pcc pcl],
    s as [sc scu sst sf scm srb scc scl], w as [l f tr].
  reduce.
  destruct (Nat.eqb (List.length (filter (id_differs x) l)) (List.length l));
    reduce; [ reflexivity | ].
  repeat (split_case; reduce); reflexivity.
Qed.

(** ** C8: removing an id that is not there *)

(** C8: when no item of the Registry has the requested id, [remove_item]
    raises the 404 error and returns the world it was given: the Registry and
    the File Store are unchanged and the trace has no new call, so the
    database was not asked; the outcome is the same in every environment. *)
Theorem C8_remove_absent_id_is_not_found
  (env : Env) (request : RemoveRequest.t) (w : World) :
  (forall item, In item (in_memory_store w) ->
                Item.id item <> Some (RemoveRequest.id request)) ->
  remove_item env request w
  = (Raise (HTTPException 404 "Item not found in memory"), w).
Proof.
  intros H. destruct request as [x]. cbn [RemoveRequest.id] in H.
  apply remove_item_absent. now apply filter_id_differs_absent.
Qed.

Lemma C8_remove_absent_id_is_not_found_witness :
  remove_item (env_database_up FetchNone) (RemoveRequest.mk 9)
              (world_of three_items)
  = (Raise (HTTPException 404 "Item not found in memory"),
     world_of three_items).
Proof.
  refine (C8_remove_absent_id_is_not_found
            (env_database_up FetchNone) (RemoveRequest.mk 9)
            (world_of three_items) _).
  intros item [<- | [<- | [<- | []]]]; discriminate.
Defined.

(** ** C3: removing an id that is there *)

(** C3 as stated fails: both items of this Registry have id 7, and one remove
    request for 7 takes the size from 2 to 0. *)
Lemma C3_two_items_share_the_id :
  (exists item, In item two_with_id_7 /\ Item.id item = Some 7)
  /\ exists response w',
       remove_item env_database_down (RemoveRequest.mk 7)
                   (world_of two_with_id_7)
       = (Return response, w')
       /\ List.length (in_memory_store (world_of two_with_id_7)) = 2%nat
       /\ List.length (in_memory_store w') = 0%nat.
Proof.
  split.
  - eexists. split; [ now left | reflexivity ].
  - eexists. eexists. split; [ reflexivity | split; reflexivity ].
Qed.

(** C3, amended: when the Registry has at least one item with id x and the
    database step runs to its end (the database is unreachable, or the
    session opens and closes and a failed delete is rolled back), a remove
    request for x succeeds and removes every item with id x: the size drops
    by the number of items that had the id, which is at least one, the
    response reports the new size, and no snapshot of the resulting Registry
    holds an item with id x. *)
Theorem C3_remove_present_id_removes_all_with_that_id
  (env : Env) (request : RemoveRequest.t) (w : World) :
  let x := RemoveRequest.id request in
  (exists item, In item (in_memory_store w) /\ Item.id item = Some x) ->
  database_step_completes env w ->
  exists w',
    remove_item env request w
    = (Return (ApiResponse.mk "success"
                 ("Item " ++ str_int x ++ " removed successfully")%string
                 [("remaining_items"%string,
                   Some (Z.of_nat (List.length (in_memory_store w'))))]),
       w')
    /\ in_memory_store w' = filter (id_differs x) (in_memory_store w)
    /\ (List.length (in_memory_store w') + count_id x (in_memory_store w)
        = List.length (in_memory_store w))%nat
    /\ (1 <= count_id x (in_memory_store w))%nat
    /\ forall sort_by,
         exists snapshot,
           get_snapshot sort_by w' = (Return snapshot, w')
           /\ forall item, In item snapshot -> Item.id item <> Some x.
Proof.
  destruct request as [x]. cbn [RemoveRequest.id]. intros Hin Hdb.
  apply count_id_present in Hin.
  destruct (remove_item_present env x w Hin Hdb) as [w' [Hrun [Hstore _]]].
  exists w'. rewrite Hrun, Hstore. unfold removed.
  split; [ reflexivity | split; [ reflexivity | split; [ | split ] ] ].
  - apply filter_id_differs_length.
  - exact Hin.
  - intros sort_by. eexists. split; [ apply get_snapshot_run | ].
    intros item Hitem. apply sorted_In in Hitem. rewrite Hstore in Hitem.
    now apply filter_id_differs_gone in Hitem.
Qed.

Lemma C3_remove_present_id_removes_all_with_that_id_witness :
  exists w',
    remove_item (env_database_up FetchNone) (RemoveRequest.mk 2)
                (world_of three_items)
    = (Return (ApiResponse.mk "success" "Item 2 removed successfully"
                 [("remaining_items"%string,
                   Some (Z.of_nat (List.length (in_memory_store w'))))]),
       w')
    /\ in_memory_store w' = filter (id_differs 2) three_items
    /\ (List.length (in_memory_store w') + count_id 2 three_items
        = List.length three_items)%nat
    /\ (1 <= count_id 2 three_items)%nat
    /\ forall sort_by,
         exists snapshot,
           get_snapshot sort_by w' = (Return snapshot, w')
           /\ forall item, In item snapshot -> Item.id item <> Some 2.
Proof.
  refine (C3_remove_present_id_removes_all_with_that_id
            (env_database_up FetchNone) (RemoveRequest.mk 2)
            (world_of three_items) _ _).
  - eexists. split; [ right; now left | reflexivity ].
  - right. repeat split. now left.
Defined.

(** In that environment the handler of the failed connection reads [conn],
    which was never assigned, and the [finally] block reads [cur]: the
    request ends in a 500 error after the Registry has been filtered and
    before the file is written. *)
Example remove_item_connection_lost :
  remove_item env_connection_lost (RemoveRequest.mk 2) (persisted three_items)
  = (Raise (HTTPException 500 "Failed to remove item"),
     {| in_memory_store := filter (id_differs 2) three_items;
        persistence_file := persistence_file (persisted three_items);
        trace := [DbConnect; DbClose; DbConnect] |}).
Proof. reflexivity. Qed.

(** ** Clearing *)

(** When the database step runs to its end, [clear_items] does what the spec
    says of it. *)
Lemma clear_items_completes (env : Env) (w : World) :
  database_step_completes env w ->
  exists w',
    clear_items env w
    = (Return (cleared (Z.of_nat (List.length (in_memory_store w)))), w')
    /\ in_memory_store w' = []
    /\ persistence_file w' = saved_file env [] (persistence_file w).
Proof.
  unfold database_step_completes, session_completes, saved_file, cleared.
  destruct env as [p s n wr], p as [pc pcu pst pf pcm prb pcc pcl],
    s as [sc scu sst sf scm srb scc scl], w as [l f tr].
  cbn [in_memory_store persistence_file trace probe session write now
       connect cursor statement commit rollback cursor_close close].
  reduce.
  repeat (split_case; reduce);
    intros [Hprobe | [Hc [Hcu [Hst [Hcc Hcl]]]]];
    try discriminate;
    try (destruct Hst as [[Hs Hcm] | Hrb]; discriminate);
    eexists; (split; [ reflexivity | split; reflexivity ]).
Qed.

Lemma clear_items_store (env : Env) (w : World) :
  in_memory_store (snd (clear_items env w)) = [].
Proof.
  destruct env as [p s n wr], p as [pc pcu pst pf pcm prb pcc pcl],
    s as [sc scu sst sf scm srb scc scl], w as [l f tr].
  reduce. repeat (split_case; reduce); reflexivity.
Qed.

(** C9 (the code departs from the claim): the probe connects and the
    connection that [clear_items] then opens is refused.  The handler of that
    error calls [conn.rollback()] with [conn] unassigned and the [finally]
    block calls [cur.close()] with [cur] unassigned, so the request ends in a
    500 error instead of success: the Registry of three items is emptied, but
    no count is reported and the File Store still holds the three items. *)
Theorem C9_clear_fails_when_connection_is_lost :
  clear_items env_connection_lost (persisted three_items)
  = (Raise (HTTPException 500 "Failed to clear items"),
     {| in_memory_store := [];
        persistence_file :=
          FileDoc {| doc_items := Some (map Item_dict three_items);
                     doc_timestamp := "2023-12-31T23:59:59" |};
        trace := [DbConnect; DbClose; DbConnect] |}).
Proof. reflexivity. Qed.

(** ** C10: ids are not unique *)

Lemma count_id_filter_id_differs (x : Z) (l : list Item.t) :
  count_id x (filter (id_differs x) l) = 0%nat.
Proof.
  unfold count_id. induction l as [| item l IH]; cbn.
  - reflexivity.
  - destruct (id_differs x item) eqn:E; [ | exact IH ].
    cbn. unfold has_id at 1. rewrite E. exact IH.
Qed.

(** C10: [add_item] does not look at ids.  A validated request whose fields
    duplicate nothing, sent while the database is unreachable, succeeds even
    though the Registry already has an item with the id of the request; the
    new item carries the id the client sent, so afterwards at least two items
    share it.  [remove_item] keeps exactly the items whose id differs from
    the requested one, in every environment, so none of those items is left
    and one request that succeeds takes all of them out. *)
Theorem C10_ids_are_shared_and_removed_together
  (env : Env) (request : AddItemRequest.t) (w : World) :
  let x := AddItemRequest.id request in
  AddItemRequest_ok request = true ->
  no_same_fields request w ->
  fst (test_db_connection (probe env) w) = Return false ->
  (exists item, In item (in_memory_store w) /\ Item.id item = Some x) ->
  exists response w1,
    add_item env request w = (Return response, w1)
    /\ ApiResponse.data response
       = [("id"%string, Some x);
          ("total_items"%string,
           Some (Z.of_nat (List.length (in_memory_store w1))))]
    /\ count_id x (in_memory_store w1) = S (count_id x (in_memory_store w))
    /\ (2 <= count_id x (in_memory_store w1))%nat
    /\ forall env',
         let w2 := snd (remove_item env' (RemoveRequest.mk x) w1) in
         in_memory_store w2 = filter (id_differs x) (in_memory_store w1)
         /\ count_id x (in_memory_store w2) = 0%nat
         /\ (List.length (in_memory_store w2) + count_id x (in_memory_store w1)
             = List.length (in_memory_store w1))%nat
         /\ (database_step_completes env' w1 ->
             fst (remove_item env' (RemoveRequest.mk x) w1)
             = Return (removed x (in_memory_store w2))).
Proof.
  intros x Hok Hno Hprobe Hin. subst x.
  apply duplicate_not_found in Hno. apply count_id_present in Hin.
  rewrite (add_item_database_down env request w Hok Hno Hprobe).
  eexists. eexists. split; [ reflexivity | ].
  cbn [in_memory_store ApiResponse.data added].
  set (x := AddItemRequest.id request) in *.
  set (item := item_with_id (Some x) request).
  assert (Hcount : count_id x (in_memory_store w ++ [item])
                   = S (count_id x (in_memory_store w))).
  { unfold count_id. rewrite filter_app, length_app. cbn.
    unfold has_id, id_differs. cbn. rewrite Z.eqb_refl. cbn. lia. }
  split; [ reflexivity | split; [ exact Hcount | split; [ rewrite Hcount; lia | ] ] ].
  intros env'. rewrite !remove_item_store.
  cbn [RemoveRequest.id in_memory_store].
  split; [ reflexivity | split; [ | split ] ].
  - apply count_id_filter_id_differs.
  - apply filter_id_differs_length.
  - intros Hdb.
    match type of Hdb with
    | database_step_completes _ ?w1 =>
        destruct (remove_item_present env' x w1) as [w' [Hrun _]]
    end; [ cbn [in_memory_store]; lia | exact Hdb | ].
    rewrite Hrun. reflexivity.
Qed.

Lemma C10_ids_are_shared_and_removed_together_witness :
  exists response w1,
    add_item env_database_down (request_A1 1 cost_10_02)
             (world_of [item_A1 (Some 1)])
    = (Return response, w1)
    /\ (2 <= count_id 1 (in_memory_store w1))%nat
    /\ count_id 1 (in_memory_store
                     (snd (remove_item env_database_down (RemoveRequest.mk 1)
                                       w1))) = 0%nat.
Proof.
  destruct (C10_ids_are_shared_and_removed_together
              env_database_down (request_A1 1 cost_10_02)
              (world_of [item_A1 (Some 1)]))
    as [response [w1 [Hadd [_ [_ [Htwo Hremove]]]]]].
  - reflexivity.
  - intros item [<- | []] [_ [_ [_ H]]]. discriminate H.
  - reflexivity.
  - eexists. split; [ now left | reflexivity ].
  - exists response, w1. split; [ exact Hadd | split; [ exact Htwo | ] ].
    apply (Hremove env_database_down).
Defined.

(** Two memory-only adds with the same id, then one remove, from an empty
    Registry. *)
Example two_adds_one_remove :
  let w0 := world_of [] in
  let w1 := snd (add_item env_database_down
                          (AddItemRequest.mk 7 "A1" 5 2 cost_10_00) w0) in
  let w2 := snd (add_item env_database_down
                          (AddItemRequest.mk 7 "B7" 3 9 cost_0_5) w1) in
  let w3 := snd (remove_item env_database_down (RemoveRequest.mk 7) w2) in
  in_memory_store w2 = two_with_id_7 /\ in_memory_store w3 = [].
Proof. split; reflexivity. Qed.

(** ** The Registry holds validated items *)

Lemma Item_dict_roundtrip (it : Item.t) :
  Item_ok it = true -> Item_of_dict (Item_dict it) = Return it.
Proof.
  destruct it as [i c u a x]. unfold Item_ok, Item_of_dict, Item_new.
  cbn. intros ->. reflexivity.
Qed.

Lemma Items_of_dicts_roundtrip (l : list Item.t) :
  Registry_ok l -> Items_of_dicts (map Item_dict l) = Return l.
Proof.
  induction 1 as [| it l Hit Hl IH]; cbn [map Items_of_dicts].
  - reflexivity.
  - rewrite (Item_dict_roundtrip it Hit), IH. reflexivity.
Qed.

Lemma Item_new_ok (i : option Z) (c : string) (u a : Z) (x : float)
  (it : Item.t) :
  Item_new i c u a x = Return it -> Item_ok it = true.
Proof.
  unfold Item_new. destruct (Item_fields_ok c u a x) eqn:E; intros H.
  - injection H as <-. exact E.
  - discriminate H.
Qed.

Lemma Items_of_dicts_ok (ds : list ItemDict.t) (l : list Item.t) :
  Items_of_dicts ds = Return l -> Registry_ok l.
Proof.
  revert l. induction ds as [| d ds IH]; cbn [Items_of_dicts]; intros l H.
  - injection H as <-. constructor.
  - destruct (Item_of_dict d) as [it |] eqn:Hd; [ | discriminate H ].
    destruct (Items_of_dicts ds) as [its |]; [ | discriminate H ].
    injection H as <-. constructor.
    + unfold Item_of_dict in Hd. now apply Item_new_ok in Hd.
    + now apply IH.
Qed.

Lemma load_from_file_run (w : World) :
  load_from_file w
  = (Return tt,
     match persistence_file w with
     | FileAbsent => w
     | FileMalformed => set_store [] w
     | FileDoc data =>
         match Items_of_dicts
                 (match doc_items data with Some l => l | None => [] end) with
         | Return its => set_store its w
         | Raise _ => set_store [] w
         end
     end).
Proof.
  destruct w as [l f tr]. destruct f as [| | data]; try reflexivity.
  reduce. destruct (Items_of_dicts _); reflexivity.
Qed.

Lemma load_from_file_ok (w : World) :
  Registry_ok (in_memory_store w) ->
  Registry_ok (in_memory_store (snd (load_from_file w))).
Proof.
  intros Hw. rewrite load_from_file_run. cbn [snd].
  destruct (persistence_file w) as [| | data]; cbn; try assumption.
  - constructor.
  - destruct (Items_of_dicts _) as [its |] eqn:E; cbn.
    + now apply Items_of_dicts_ok in E.
    + constructor.
Qed.

Lemma save_to_file_run (env : Env) (w : World) :
  save_to_file env w
  = (Return tt,
     {| in_memory_store := in_memory_store w;
        persistence_file :=
          saved_file env (in_memory_store w) (persistence_file w);
        trace := trace w ++ [FileWrite] |}).
Proof.
  unfold saved_file. destruct env as [p s n wr], w as [l f tr].
  reduce. destruct wr; reflexivity.
Qed.

Lemma item_with_id_ok (i : option Z) (request : AddItemRequest.t) :
  AddItemRequest_ok request = true -> Item_ok (item_with_id i request) = true.
Proof. intros H. exact H. Qed.

(** A successful add appends one item built from the request and leaves the
    file as [save_to_file] writes it for the new Registry. *)
Lemma add_item_success (env : Env) (request : AddItemRequest.t) (w w' : World)
  (response : ApiResponse.t) :
  AddItemRequest_ok request = true ->
  add_item env request w = (Return response, w') ->
  (exists i, in_memory_store w'
             = in_memory_store w ++ [item_with_id i request])
  /\ persistence_file w'
     = saved_file env (in_memory_store w') (persistence_file w).
Proof.
  unfold AddItemRequest_ok, saved_file, item_with_id.
  destruct request as [i c u a x], env as [p s n wr],
    p as [pc pcu pst pf pcm prb pcc pcl],
    s as [sc scu sst sf scm srb scc scl], w as [l f tr].
  cbn [AddItemRequest.id AddItemRequest.code AddItemRequest.unit
       AddItemRequest.age AddItemRequest.cost in_memory_store
       persistence_file trace probe write now].
  intros Hok. reduce. rewrite Hok.
  destruct (existsb (is_duplicate_of c u a x) l); reduce;
    [ intros H; discriminate H | ].
  repeat (first [ split_case | split_status ]; reduce);
    intros H; try discriminate H;
    inversion H; subst; (split; [ eexists | ]; reflexivity).
Qed.

(** Whatever the outcome, [add_item] leaves the Registry as it was or with
    one item of the request appended. *)
Lemma add_item_store (env : Env) (request : AddItemRequest.t) (w : World) :
  AddItemRequest_ok request = true ->
  in_memory_store (snd (add_item env request w)) = in_memory_store w
  \/ exists i, in_memory_store (snd (add_item env request w))
               = in_memory_store w ++ [item_with_id i request].
Proof.
  unfold AddItemRequest_ok, item_with_id.
  destruct request as [i c u a x], env as [p s n wr],
    p as [pc pcu pst pf pcm prb pcc pcl],
    s as [sc scu sst sf scm srb scc scl], w as [l f tr].
  cbn [AddItemRequest.id AddItemRequest.code AddItemRequest.unit
       AddItemRequest.age AddItemRequest.cost in_memory_store].
  intros Hok. reduce. rewrite Hok.
  destruct (existsb (is_duplicate_of c u a x) l); reduce;
    [ now left | ].
  repeat (first [ split_case | split_status ]; reduce);
    first [ left; reflexivity | right; eexists; reflexivity ].
Qed.

Lemma remove_item_success (env : Env) (request : RemoveRequest.t)
  (w w' : World) (response : ApiResponse.t) :
  remove_item env request w = (Return response, w') ->
  persistence_file w'
  = saved_file env (in_memory_store w') (persistence_file w).
Proof.
  unfold saved_file.
  destruct request as [x], env as [p s n wr],
    p as [pc pcu pst pf pcm prb pcc pcl],
    s as [sc scu sst sf scm srb scc scl], w as [l f tr].
  cbn [persistence_file write now]. reduce.
  destruct (Nat.eqb (List.length (filter (id_differs x) l)) (List.length l));
    reduce; [ intros H; discriminate H | ].
  repeat (split_case; reduce); intros H; try discriminate H;
    inversion H; subst; reflexivity.
Qed.

Lemma clear_items_success (env : Env) (w w' : World)
  (response : ApiResponse.t) :
  clear_items env w = (Return response, w') ->
  in_memory_store w' = []
  /\ persistence_file w' = saved_file env [] (persistence_file w).
Proof.
  unfold saved_file.
  destruct env as [p s n wr],
    p as [pc pcu pst pf pcm prb pcc pcl],
    s as [sc scu sst sf scm srb scc scl], w as [l f tr].
  cbn [persistence_file write now]. reduce.
  repeat (split_case; reduce); intros H; try discriminate H;
    inversion H; subst; split; reflexivity.
Qed.

Lemma handles_Registry_ok (w w' : World) :
  handles w w' -> Registry_ok (in_memory_store w) ->
  Registry_ok (in_memory_store w').
Proof.
  unfold Registry_ok.
  intros H Hw. destruct H as [env request w Hok | request w | env request w
                             | env w].
  - destruct (add_item_store env request w Hok) as [-> | [i ->]].
    + exact Hw.
    + apply Forall_app. split; [ exact Hw | ].
      constructor; [ now apply item_with_id_ok | constructor ].
  - rewrite get_snapshot_run. exact Hw.
  - rewrite remove_item_store. rewrite Forall_forall in *.
    intros it Hit. apply filter_In in Hit. now apply Hw.
  - rewrite clear_items_store. constructor.
Qed.

Lemma reachable_Registry_ok (f : file_state) (w : World) :
  reachable f w -> Registry_ok (in_memory_store w).
Proof.
  induction 1 as [| w w' _ IH Hstep].
  - apply load_from_file_ok. constructor.
  - now apply (handles_Registry_ok w w').
Qed.

(** ** C5: the File Store gives back what was saved *)

Lemma load_saved (l : list Item.t) (timestamp : string) (w0 : World) :
  Registry_ok l ->
  persistence_file w0
  = FileDoc {| doc_items := Some (map Item_dict l);
               doc_timestamp := timestamp |} ->
  in_memory_store (snd (load_from_file w0)) = l.
Proof.
  intros Hl Hfile. rewrite load_from_file_run, Hfile. cbn [snd doc_items].
  rewrite (Items_of_dicts_roundtrip l Hl). reflexivity.
Qed.

(** C5: for a Registry of validated items and a save whose write works, a
    process that finds the saved file and loads it has exactly the saved
    Registry, item for item and in order.  Hence after an add, a remove or a
    clear that returns success, a restart from the file gives the Registry
    the request left. *)
Theorem C5_load_after_save_is_the_registry (env : Env) (w : World) :
  Registry_ok (in_memory_store w) ->
  write env = WriteOk ->
  (forall w0,
      persistence_file w0 = persistence_file (snd (save_to_file env w)) ->
      in_memory_store (snd (load_from_file w0)) = in_memory_store w)
  /\ (forall request response w',
         AddItemRequest_ok request = true ->
         add_item env request w = (Return response, w') ->
         in_memory_store (snd (startup_event (boot (persistence_file w'))))
         = in_memory_store w')
  /\ (forall request response w',
         remove_item env request w = (Return response, w') ->
         in_memory_store (snd (startup_event (boot (persistence_file w'))))
         = in_memory_store w')
  /\ (forall response w',
         clear_items env w = (Return response, w') ->
         in_memory_store (snd (startup_event (boot (persistence_file w'))))
         = in_memory_store w').
Proof.
  intros Hw Hwrite. unfold startup_event.
  split; [ | split; [ | split ] ].
  - intros w0 Hfile. rewrite save_to_file_run in Hfile.
    cbn [snd persistence_file] in Hfile. unfold saved_file in Hfile.
    rewrite Hwrite in Hfile. now apply (load_saved _ (now env)).
  - intros request response w' Hok Hadd.
    destruct (add_item_success env request w w' response Hok Hadd)
      as [[i Hstore] Hfile].
    unfold saved_file in Hfile. rewrite Hwrite in Hfile.
    apply (load_saved _ (now env)); [ | exact Hfile ].
    rewrite Hstore. apply Forall_app. split; [ exact Hw | ].
    constructor; [ now apply item_with_id_ok | constructor ].
  - intros request response w' Hremove.
    pose proof (remove_item_success env request w w' response Hremove)
      as Hfile.
    unfold saved_file in Hfile. rewrite Hwrite in Hfile.
    apply (load_saved _ (now env)); [ | exact Hfile ].
    replace w' with (snd (remove_item env request w))
      by (rewrite Hremove; reflexivity).
    rewrite remove_item_store. unfold Registry_ok in *.
    rewrite Forall_forall in *.
    intros it Hit. apply filter_In in Hit. now apply Hw.
  - intros response w' Hclear.
    destruct (clear_items_success env w w' response Hclear)
      as [Hstore Hfile].
    unfold saved_file in Hfile. rewrite Hwrite in Hfile.
    rewrite Hstore. apply (load_saved _ (now env)); [ constructor | ].
    exact Hfile.
Qed.

Lemma C5_load_after_save_is_the_registry_witness :
  in_memory_store
    (snd (load_from_file
            (boot (persistence_file
                     (snd (save_to_file env_database_down
                                        (world_of three_items)))))))
  = three_items.
Proof.
  refine (proj1 (C5_load_after_save_is_the_registry
                   env_database_down (world_of three_items) _ eq_refl)
                (boot _) eq_refl).
  repeat constructor.
Defined.

(** * Further properties of the code *)

(** ** The calls of a request *)

Lemma calls_since_app (l : list Item.t) (f : file_state) (tr t : list effect)
  (w' : World) :
  trace w' = tr ++ t ->
  calls_since {| in_memory_store := l; persistence_file := f; trace := tr |} w'
  = t.
Proof.
  intros H. unfold calls_since. cbn [trace]. rewrite H, skipn_app.
  rewrite skipn_all, Nat.sub_diag. reflexivity.
Qed.

(** In a goal about a world computed from the trace [tr]: the calls made. *)
Ltac calls :=
  erewrite calls_since_app
    by (cbn [trace]; repeat rewrite <- app_assoc; reflexivity);
  cbn [app].

(** ** The stored procedure *)

(** X1: [call_stored_procedure] ends in one of three ways.  It returns the
    fetched row, and then every call of the session worked, the commit
    included.  Or it raises an [HTTPException], always with status 500.  Or
    it raises what the rollback or one of the two closes raised. *)
Theorem X1_call_stored_procedure_outcomes
  (s : Session) (c : string) (u a : Z) (x : float) (w : World) :
  match fst (call_stored_procedure s c u a x w) with
  | Return (i, st, m) =>
      fetchone s = FetchRow i st m
      /\ connect s = None /\ cursor s = None /\ statement s = None
      /\ commit s = None /\ cursor_close s = None /\ close s = None
  | Raise (HTTPException status _) => status = 500
  | Raise e =>
      exists r, e = exn_of_raised r
                /\ (rollback s = Some r \/ cursor_close s = Some r
                    \/ close s = Some r)
  end.
Proof.
  destruct s as [sc scu sst sf scm srb scc scl], w as [l f tr].
  crunch; cbn [exn_of_raised];
    try reflexivity; try (repeat split; reflexivity);
    match goal with
    | |- exists r, Psycopg2Error ?m = _ /\ _ =>
        exists (DriverError m); split; [ reflexivity | tauto ]
    | |- exists r, PyException ?m = _ /\ _ =>
        exists (OtherError m); split; [ reflexivity | tauto ]
    end.
Qed.

(** X2: once the connection is open, [call_stored_procedure] closes it
    unless closing the cursor raised: the [finally] block calls [cur.close()]
    first, and what that raises skips [conn.close()]. *)
Theorem X2_call_stored_procedure_closes_the_connection
  (s : Session) (c : string) (u a : Z) (x : float) (w : World) :
  connect s = None ->
  (In DbClose (calls_since w (snd (call_stored_procedure s c u a x w)))
   <-> cursor s <> None \/ cursor_close s = None).
Proof.
  destruct s as [sc scu sst sf scm srb scc scl], w as [l f tr].
  cbn [connect cursor cursor_close]. intros ->.
  crunch; calls; cbn [In]; split; intros H;
    solve [ tauto
          | right; reflexivity
          | left; discriminate
          | repeat (destruct H as [H | H]; try discriminate H);
            try contradiction;
            destruct H as [H | H]; [ now contradiction H | discriminate H ]
          | intuition discriminate ].
Qed.

Lemma X2_call_stored_procedure_closes_the_connection_witness :
  (In DbClose
      (calls_since (world_of [])
         (snd (call_stored_procedure (answering FetchNone) "A1" 5 2
                                     cost_10_00 (world_of []))))
   <-> cursor (answering FetchNone) <> None
       \/ cursor_close (answering FetchNone) = None).
Proof.
  exact (X2_call_stored_procedure_closes_the_connection
           (answering FetchNone) "A1" 5 2 cost_10_00 (world_of []) eq_refl).
Defined.

(** The leak: the cursor opens, the row is committed, and closing the cursor
    raises; [conn.close()] is never called. *)
Example connection_left_open :
  calls_since (world_of [])
    (snd (call_stored_procedure cursor_close_fails "A1" 5 2 cost_10_00
                                (world_of [])))
  = [DbConnect; DbCursor; DbCallproc "add_call" "A1" 5 2 cost_10_00;
     DbFetchone; DbCommit; DbCursorClose].
Proof. reflexivity. Qed.

(** ** Adding *)

(** X3: [add_item] raises nothing but an [HTTPException] with status 400 or
    500, and a request that fails has changed neither the Registry nor the
    File Store: it made calls into the database driver only. *)
Theorem X3_add_item_failure_changes_nothing
  (env : Env) (request : AddItemRequest.t) (w w' : World) (e : exn) :
  add_item env request w = (Raise e, w') ->
  (exists detail,
      e = HTTPException 400 detail \/ e = HTTPException 500 detail)
  /\ in_memory_store w' = in_memory_store w
  /\ persistence_file w' = persistence_file w
  /\ forallb is_db_effect (calls_since w w') = true.
Proof.
  destruct request as [i c u a x], env as [p s n wr],
    p as [pc pcu pst pf pcm prb pcc pcl],
    s as [sc scu sst sf scm srb scc scl], w as [l f tr].
  reduce.
  destruct (existsb (is_duplicate_of c u a x) l); reduce.
  - intros H. inversion H; subst. split; [ eexists; left; reflexivity | ].
    repeat split. unfold calls_since. cbn [trace].
    rewrite skipn_all. reflexivity.
  - destruct (Item_fields_ok c u a x);
      repeat (first [ split_case | split_status ]; reduce);
      intros H; try discriminate H; inversion H; subst;
      (split; [ eexists; first [ left; reflexivity | right; reflexivity ]
              | ]);
      (split; [ reflexivity | split; [ reflexivity | ] ]);
      calls; reflexivity.
Qed.

Lemma X3_add_item_failure_changes_nothing_witness :
  (exists detail,
      HTTPException 500
        "Database error: server closed the connection unexpectedly"
      = HTTPException 400 detail
      \/ HTTPException 500
           "Database error: server closed the connection unexpectedly"
         = HTTPException 500 detail)
  /\ in_memory_store (snd (add_item env_insert_fails (request_A1 1 cost_10_00)
                                    (world_of [])))
     = in_memory_store (world_of [])
  /\ persistence_file (snd (add_item env_insert_fails
                                     (request_A1 1 cost_10_00) (world_of [])))
     = persistence_file (world_of [])
  /\ forallb is_db_effect
       (calls_since (world_of [])
          (snd (add_item env_insert_fails (request_A1 1 cost_10_00)
                         (world_of []))))
     = true.
Proof.
  exact (X3_add_item_failure_changes_nothing
           env_insert_fails (request_A1 1 cost_10_00) (world_of []) _ _
           eq_refl).
Defined.

(** X4: whenever [add_item] succeeds, it appended exactly one item with the
    fields of the request and wrote the file once, as its last call.  The
    item has either the id the client sent, and then the message is the
    memory-only one, or the id of the row the stored procedure returned with
    a status other than 0, and then the message is the procedure's.  The
    response carries that id and the new size of the Registry. *)
Theorem X4_add_item_success_shape
  (env : Env) (request : AddItemRequest.t) (w w' : World)
  (response : ApiResponse.t) :
  add_item env request w = (Return response, w') ->
  exists (i : option Z) (message : string),
    in_memory_store w' = in_memory_store w ++ [item_with_id i request]
    /\ response
       = added message (item_with_id i request) (in_memory_store w')
    /\ (i = Some (AddItemRequest.id request)
        /\ message = memory_only_message
        \/ exists status, fetchone (session env) = FetchRow i status message
                          /\ status <> 0)
    /\ persistence_file w'
       = saved_file env (in_memory_store w') (persistence_file w)
    /\ filter (fun e => negb (is_db_effect e)) (calls_since w w')
       = [FileWrite]
    /\ last (calls_since w w') DbConnect = FileWrite.
Proof.
  unfold saved_file, added, item_with_id.
  destruct request as [i c u a x], env as [p s n wr],
    p as [pc pcu pst pf pcm prb pcc pcl],
    s as [sc scu sst sf scm srb scc scl], w as [l f tr].
  cbn [AddItemRequest.id AddItemRequest.code AddItemRequest.unit
       AddItemRequest.age AddItemRequest.cost in_memory_store
       persistence_file session fetchone write now].
  reduce.
  destruct (existsb (is_duplicate_of c u a x) l); reduce;
    [ intros H; discriminate H | ].
  destruct (Item_fields_ok c u a x);
    repeat (first [ split_case
                  | match goal with
                    | |- context [?z =? 0] => destruct (Z.eqb_spec z 0)
                    end ]; reduce);
    intros H; try discriminate H; inversion H; subst;
    eexists; eexists;
    (split; [ reflexivity | split; [ reflexivity | split; [ | split ] ] ]);
    try reflexivity;
    try (calls; split; reflexivity);
    first [ left; split; reflexivity
          | right; eexists; split; [ reflexivity | assumption ] ].
Qed.

Lemma X4_add_item_success_shape_witness :
  exists (i : option Z) (message : string),
    in_memory_store
      (snd (add_item (env_database_up (FetchRow (Some 17) 1 "Item added"))
                     (request_A1 2 cost_10_02) (world_of [])))
    = [] ++ [item_with_id i (request_A1 2 cost_10_02)]
    /\ (i = Some 2 /\ message = memory_only_message
        \/ exists status,
             FetchRow (Some 17) 1 "Item added" = FetchRow i status message
             /\ status <> 0).
Proof.
  destruct (X4_add_item_success_shape
              (env_database_up (FetchRow (Some 17) 1 "Item added"))
              (request_A1 2 cost_10_02) (world_of []) _ _ eq_refl)
    as [i [message [Hstore [_ [Hid _]]]]].
  exists i, message. split; [ exact Hstore | exact Hid ].
Defined.

(** X5: when the probe connects and the session of the insert opens its
    connection and cursor but closing the cursor or the connection raises,
    [call_stored_procedure] lets that exception out of its [finally] block
    and [add_item] stores the item memory-only under the client's id,
    whatever the insert did: also when the row was committed, and also when
    the procedure had rejected it with status 0. *)
Theorem X5_add_item_falls_back_when_a_close_raises
  (env : Env) (request : AddItemRequest.t) (w : World) (r : raised) :
  AddItemRequest_ok request = true ->
  no_same_fields request w ->
  fst (test_db_connection (probe env) w) = Return true ->
  connect (session env) = None ->
  cursor (session env) = None ->
  cursor_close (session env) = Some r
  \/ cursor_close (session env) = None /\ close (session env) = Some r ->
  let item := item_with_id (Some (AddItemRequest.id request)) request in
  exists w',
    add_item env request w
    = (Return (added memory_only_message item (in_memory_store w ++ [item])),
       w')
    /\ in_memory_store w' = in_memory_store w ++ [item].
Proof.
  intros Hok Hno. apply duplicate_not_found in Hno. revert Hok Hno.
  unfold AddItemRequest_ok, added, item_with_id.
  destruct request as [i c u a x], env as [p s n wr],
    p as [pc pcu pst pf pcm prb pcc pcl],
    s as [sc scu sst sf scm srb scc scl], w as [l f tr].
  cbn [AddItemRequest.id AddItemRequest.code AddItemRequest.unit
       AddItemRequest.age AddItemRequest.cost in_memory_store
       persistence_file trace probe session
       connect cursor cursor_close close].
  intros Hok Hdup Hprobe -> -> Hclose. revert Hprobe.
  destruct Hclose as [-> | [-> ->]]; reduce; rewrite Hdup, Hok;
    repeat (first [ split_case | split_status ]; reduce);
    intros Hprobe; try discriminate Hprobe;
    eexists; split; reflexivity.
Qed.

Lemma X5_add_item_falls_back_when_a_close_raises_witness :
  exists w',
    add_item env_cursor_close_fails (request_A1 2 cost_10_02) (world_of [])
    = (Return (added memory_only_message
                 (item_with_id (Some 2) (request_A1 2 cost_10_02))
                 ([] ++ [item_with_id (Some 2) (request_A1 2 cost_10_02)])),
       w')
    /\ in_memory_store w'
       = [] ++ [item_with_id (Some 2) (request_A1 2 cost_10_02)].
Proof.
  refine (X5_add_item_falls_back_when_a_close_raises
            env_cursor_close_fails (request_A1 2 cost_10_02) (world_of [])
            (DriverError "cursor already closed")
            eq_refl _ eq_refl eq_refl eq_refl (or_introl eq_refl)).
  intros item [].
Defined.

(** ** Adding the same fields again *)

Lemma float_sub_self (x : float) :
  float_le float_zero x = true ->
  float_lt (float_abs (float_sub x x)) float_0_01
  = match x with S754_infinity _ => false | _ => true end.
Proof.
  intros H. float_cases H.
  - destruct x0; reflexivity.
  - reflexivity.
  - unfold float_sub, SFsub. cbn [cond_Zopp].
    rewrite Z.sub_diag. reflexivity.
Qed.

Lemma add_item_success_not_in_memory (env : Env) (request : AddItemRequest.t)
  (w w' : World) (response : ApiResponse.t) :
  add_item env request w = (Return response, w') ->
  not_in_memory request w.
Proof.
  unfold not_in_memory.
  destruct request as [i c u a x], env as [p s n wr], w as [l f tr].
  cbn [AddItemRequest.code AddItemRequest.unit AddItemRequest.age
       AddItemRequest.cost in_memory_store].
  reduce. destruct (existsb (is_duplicate_of c u a x) l); reduce.
  - intros H. discriminate H.
  - reflexivity.
Qed.

(** X6: after an add that succeeded, a request with the same code, unit,
    age and cost (under any id) is rejected as a duplicate, in every
    environment, provided the cost is not +Infinity. *)
Theorem X6_adding_the_same_fields_again_is_rejected
  (env env' : Env) (request again : AddItemRequest.t) (w w' : World)
  (response : ApiResponse.t) :
  AddItemRequest_ok request = true ->
  AddItemRequest.cost request <> float_infinity ->
  same_request_fields request again ->
  add_item env request w = (Return response, w') ->
  add_item env' again w' = (Raise duplicate_error, w').
Proof.
  intros Hok Hfinite [Hc [Hu [Ha Hx]]] Hadd.
  destruct (add_item_success env request w w' response Hok Hadd)
    as [[i Hstore] _].
  assert (Hdup : existsb (is_duplicate_of (AddItemRequest.code again)
                            (AddItemRequest.unit again)
                            (AddItemRequest.age again)
                            (AddItemRequest.cost again))
                         (in_memory_store w') = true).
  { rewrite Hstore, existsb_app, Hc, Hu, Ha, Hx. apply orb_true_iff. right.
    cbn [existsb]. rewrite orb_false_r.
    unfold is_duplicate_of, item_with_id.
    cbn [Item.code Item.unit Item.age Item.cost].
    rewrite String.eqb_refl, !Z.eqb_refl. cbn [andb].
    assert (Hcost : float_le float_zero (AddItemRequest.cost request) = true).
    { unfold AddItemRequest_ok, Item_fields_ok in Hok.
      rewrite !andb_true_iff in Hok. tauto. }
    rewrite (float_sub_self _ Hcost).
    unfold float_infinity in Hfinite. revert Hcost Hfinite.
    destruct (AddItemRequest.cost request) as [| [|] | |];
      intros Hcost Hfinite; try reflexivity.
    + cbv in Hcost. discriminate Hcost.
    + now contradiction Hfinite. }
  destruct again as [j c u a x], w' as [l f tr].
  cbn [AddItemRequest.code AddItemRequest.unit AddItemRequest.age
       AddItemRequest.cost in_memory_store] in Hdup.
  reduce. rewrite Hdup. reflexivity.
Qed.

Lemma X6_adding_the_same_fields_again_is_rejected_witness :
  add_item (env_database_up (FetchRow (Some 17) 1 "Item added"))
           (request_A1 9 cost_10_02)
           (snd (add_item env_database_down (request_A1 2 cost_10_02)
                          (world_of [])))
  = (Raise duplicate_error,
     snd (add_item env_database_down (request_A1 2 cost_10_02) (world_of []))).
Proof.
  refine (X6_adding_the_same_fields_again_is_rejected
            env_database_down _ (request_A1 2 cost_10_02)
            (request_A1 9 cost_10_02) (world_of []) _ _
            eq_refl _ _ eq_refl).
  - discriminate.
  - repeat split.
Defined.

(** X7: a cost of +Infinity is never within the tolerance of itself
    ([inf - inf] is NaN), so the same request is stored again: after a
    successful add of a validated request with that cost, the same request,
    sent while the database is unreachable, succeeds and the Registry ends
    with two items of the same fields. *)
Theorem X7_infinite_cost_is_stored_twice
  (env env' : Env) (request : AddItemRequest.t) (w w' : World)
  (response : ApiResponse.t) :
  AddItemRequest_ok request = true ->
  AddItemRequest.cost request = float_infinity ->
  add_item env request w = (Return response, w') ->
  fst (test_db_connection (probe env') w') = Return false ->
  exists (i : option Z) (w'' : World),
    let again := item_with_id (Some (AddItemRequest.id request)) request in
    add_item env' request w'
    = (Return (added memory_only_message again (in_memory_store w'')), w'')
    /\ in_memory_store w''
       = in_memory_store w ++ [item_with_id i request; again].
Proof.
  intros Hok Hinf Hadd Hprobe.
  pose proof (add_item_success_not_in_memory env request w w' response Hadd)
    as Hw.
  destruct (add_item_success env request w w' response Hok Hadd)
    as [[i Hstore] _].
  assert (Hw' : not_in_memory request w').
  { unfold not_in_memory in *. rewrite Hstore, existsb_app, Hw.
    cbn [existsb orb]. rewrite orb_false_r.
    unfold is_duplicate_of, item_with_id.
    cbn [Item.code Item.unit Item.age Item.cost].
    rewrite Hinf. apply andb_false_r. }
  rewrite (add_item_database_down env' request w' Hok Hw' Hprobe).
  exists i. eexists (Build_World _ _ _). cbn zeta. split; [ reflexivity | ].
  cbn [in_memory_store]. rewrite Hstore, <- app_assoc. reflexivity.
Qed.

Lemma X7_infinite_cost_is_stored_twice_witness :
  exists (i : option Z) (w'' : World),
    in_memory_store w''
    = [] ++ [item_with_id i (request_A1 2 float_infinity);
             item_with_id (Some 2) (request_A1 2 float_infinity)].
Proof.
  destruct (X7_infinite_cost_is_stored_twice
              env_database_down env_database_down
              (request_A1 2 float_infinity) (world_of []) _ _
              eq_refl eq_refl eq_refl eq_refl)
    as [i [w'' [_ Hstore]]].
  exists i, w''. exact Hstore.
Defined.

(** ** The file write never reaches the client *)

(** X8: what [add_item], [remove_item] and [clear_items] answer, and the
    Registry they leave, do not depend on whether the file write works:
    [save_to_file] swallows every exception. *)
Theorem X8_responses_do_not_depend_on_the_file_write
  (env : Env) (wr : write_outcome) (w : World) :
  (forall request,
      fst (add_item (with_write wr env) request w)
      = fst (add_item env request w)
      /\ in_memory_store (snd (add_item (with_write wr env) request w))
         = in_memory_store (snd (add_item env request w)))
  /\ (forall request,
         fst (remove_item (with_write wr env) request w)
         = fst (remove_item env request w)
         /\ in_memory_store (snd (remove_item (with_write wr env) request w))
            = in_memory_store (snd (remove_item env request w)))
  /\ fst (clear_items (with_write wr env) w) = fst (clear_items env w)
  /\ in_memory_store (snd (clear_items (with_write wr env) w))
     = in_memory_store (snd (clear_items env w)).
Proof.
  unfold with_write.
  destruct env as [p s n wr0],
    p as [pc pcu pst pf pcm prb pcc pcl],
    s as [sc scu sst sf scm srb scc scl], w as [l f tr].
  cbn [probe session now].
  split; [ | split; [ | split ] ].
  - intros [i c u a x]. reduce.
    destruct (existsb (is_duplicate_of c u a x) l); reduce;
      [ split; reflexivity | ].
    destruct (Item_fields_ok c u a x);
      repeat (first [ split_case | split_status ]; reduce);
      split; reflexivity.
  - intros [x]. reduce.
    destruct (Nat.eqb (List.length (filter (id_differs x) l))
                      (List.length l)); reduce;
      [ split; reflexivity | ].
    repeat (split_case; reduce); split; reflexivity.
  - reduce. repeat (split_case; reduce); reflexivity.
  - reduce. repeat (split_case; reduce); reflexivity.
Qed.

(** ** Removing *)

(** X9: [remove_item] raises nothing but the 404 error, with the world
    unchanged, or a 500 error; and when it raises the 500 error the items
    with the id are already gone from the Registry while the file has not
    been written: memory and File Store differ until the next save. *)
Theorem X9_remove_item_failure
  (env : Env) (request : RemoveRequest.t) (w w' : World) (e : exn) :
  remove_item env request w = (Raise e, w') ->
  e = not_found /\ w' = w
  \/ e = HTTPException 500 "Failed to remove item"
     /\ in_memory_store w'
        = filter (id_differs (RemoveRequest.id request)) (in_memory_store w)
     /\ (List.length (in_memory_store w')
         < List.length (in_memory_store w))%nat
     /\ persistence_file w' = persistence_file w
     /\ forallb is_db_effect (calls_since w w') = true.
Proof.
  destruct request as [x], env as [p s n wr],
    p as [pc pcu pst pf pcm prb pcc pcl],
    s as [sc scu sst sf scm srb scc scl], w as [l f tr].
  cbn [RemoveRequest.id in_memory_store persistence_file].
  reduce.
  destruct (Nat.eqb (List.length (filter (id_differs x) l)) (List.length l))
    eqn:Hlen; reduce.
  - intros H. inversion H; subst. left. split; [ reflexivity | ].
    f_equal. apply Nat.eqb_eq in Hlen.
    now apply forallb_filter_id, filter_length_forallb.
  - apply Nat.eqb_neq in Hlen.
    pose proof (filter_length_le (id_differs x) l) as Hle.
    repeat (split_case; reduce); intros H; try discriminate H;
      inversion H; subst; right; reduce;
      (split; [ reflexivity | split; [ reflexivity | split; [ lia | ] ] ]);
      (split; [ reflexivity | ]); calls; reflexivity.
Qed.

Lemma X9_remove_item_failure_witness :
  HTTPException 500 "Failed to remove item" = not_found
  /\ snd (remove_item env_connection_lost (RemoveRequest.mk 2)
                      (persisted three_items))
     = persisted three_items
  \/ HTTPException 500 "Failed to remove item"
     = HTTPException 500 "Failed to remove item"
     /\ in_memory_store
          (snd (remove_item env_connection_lost (RemoveRequest.mk 2)
                            (persisted three_items)))
        = filter (id_differs 2) three_items
     /\ (List.length
           (in_memory_store
              (snd (remove_item env_connection_lost (RemoveRequest.mk 2)
                                (persisted three_items))))
         < List.length three_items)%nat
     /\ persistence_file
          (snd (remove_item env_connection_lost (RemoveRequest.mk 2)
                            (persisted three_items)))
        = persistence_file (persisted three_items)
     /\ forallb is_db_effect
          (calls_since (persisted three_items)
             (snd (remove_item env_connection_lost (RemoveRequest.mk 2)
                               (persisted three_items))))
        = true.
Proof.
  exact (X9_remove_item_failure
           env_connection_lost (RemoveRequest.mk 2) (persisted three_items)
           _ _ eq_refl).
Defined.

Lemma filter_id_differs_twice (x : Z) (l : list Item.t) :
  filter (id_differs x) (filter (id_differs x) l) = filter (id_differs x) l.
Proof.
  induction l as [| item l IH]; cbn [filter].
  - reflexivity.
  - destruct (id_differs x item) eqn:E; [ | exact IH ].
    cbn [filter]. rewrite E, IH. reflexivity.
Qed.

(** X10: after a remove request for an id, however it ended, a second
    remove request for the same id is answered with the 404 error and
    changes nothing. *)
Theorem X10_removing_twice_is_not_found
  (env env' : Env) (request : RemoveRequest.t) (w : World) :
  remove_item env' request (snd (remove_item env request w))
  = (Raise not_found, snd (remove_item env request w)).
Proof.
  destruct request as [x]. apply remove_item_absent.
  rewrite remove_item_store. cbn [RemoveRequest.id].
  apply filter_id_differs_twice.
Qed.

(** X11: adding a validated request memory-only to a Registry that has no
    item with the id of the request, and then removing that id, gives back
    the Registry as it was before the add, in every environment of the
    remove. *)
Theorem X11_add_then_remove_restores_the_registry
  (env env' : Env) (request : AddItemRequest.t) (w : World) :
  AddItemRequest_ok request = true ->
  no_same_fields request w ->
  fst (test_db_connection (probe env) w) = Return false ->
  (forall item, In item (in_memory_store w) ->
                Item.id item <> Some (AddItemRequest.id request)) ->
  in_memory_store
    (snd (remove_item env' (RemoveRequest.mk (AddItemRequest.id request))
                      (snd (add_item env request w))))
  = in_memory_store w.
Proof.
  intros Hok Hno Hprobe Hfresh. apply duplicate_not_found in Hno.
  rewrite remove_item_store.
  rewrite (add_item_database_down env request w Hok Hno Hprobe).
  cbn [snd in_memory_store RemoveRequest.id].
  rewrite filter_app. cbn [filter].
  unfold id_differs at 2, item_with_id. cbn [Item.id].
  rewrite Z.eqb_refl. cbn [negb]. rewrite app_nil_r.
  now apply filter_id_differs_absent.
Qed.

Lemma X11_add_then_remove_restores_the_registry_witness :
  in_memory_store
    (snd (remove_item (env_database_up FetchNone) (RemoveRequest.mk 4)
                      (snd (add_item env_database_down
                                     (AddItemRequest.mk 4 "D4" 1 1 cost_0_5)
                                     (world_of three_items)))))
  = three_items.
Proof.
  refine (X11_add_then_remove_restores_the_registry
            env_database_down (env_database_up FetchNone)
            (AddItemRequest.mk 4 "D4" 1 1 cost_0_5) (world_of three_items)
            eq_refl _ eq_refl _).
  - intros item [<- | [<- | [<- | []]]] [H _]; discriminate H.
  - intros item [<- | [<- | [<- | []]]]; discriminate.
Defined.

(** ** Clearing *)

(** X12: [clear_items] empties the Registry in every environment.  It then
    either answers with the number of items there were and has written the
    file, or raises the 500 error, and then the file is as before: the
    Registry is empty while the File Store still has the old items. *)
Theorem X12_clear_items_outcomes (env : Env) (w : World) :
  let w' := snd (clear_items env w) in
  in_memory_store w' = []
  /\ match fst (clear_items env w) with
     | Return response =>
         response = cleared (Z.of_nat (List.length (in_memory_store w)))
         /\ persistence_file w' = saved_file env [] (persistence_file w)
         /\ last (calls_since w w') DbConnect = FileWrite
     | Raise e =>
         e = HTTPException 500 "Failed to clear items"
         /\ persistence_file w' = persistence_file w
         /\ forallb is_db_effect (calls_since w w') = true
     end.
Proof.
  unfold saved_file, cleared.
  destruct env as [p s n wr],
    p as [pc pcu pst pf pcm prb pcc pcl],
    s as [sc scu sst sf scm srb scc scl], w as [l f tr].
  cbn [in_memory_store persistence_file write now].
  reduce. repeat (split_case; reduce);
    (split; [ reflexivity
            | split; [ reflexivity | split; [ reflexivity | ] ] ]);
    calls; reflexivity.
Qed.

(** X13: when the probe returns false, or the session of the truncate opens
    and closes and a failed truncate is rolled back, [clear_items] succeeds:
    it reports the number of items the Registry had, leaves the Registry
    empty, runs [save_to_file] on the empty Registry, and a snapshot taken
    next is empty. *)
Theorem X13_clear_items_succeeds_when_the_database_step_completes
  (env : Env) (w : World) :
  database_step_completes env w ->
  exists w',
    clear_items env w
    = (Return (ApiResponse.mk "success"
                 ("All items cleared successfully ("
                  ++ str_int (Z.of_nat (List.length (in_memory_store w)))
                  ++ " items removed)")%string
                 [("items_cleared"%string,
                   Some (Z.of_nat (List.length (in_memory_store w))))]),
       w')
    /\ in_memory_store w' = []
    /\ persistence_file w' = saved_file env [] (persistence_file w)
    /\ forall sort_by, get_snapshot sort_by w' = (Return [], w').
Proof.
  intros Hdb.
  destruct (clear_items_completes env w Hdb) as [w' [Hrun [Hstore Hfile]]].
  exists w'. split; [ exact Hrun | split; [ exact Hstore | split ] ].
  - exact Hfile.
  - intros sort_by. rewrite get_snapshot_run, Hstore. reflexivity.
Qed.

Lemma X13_clear_items_succeeds_when_the_database_step_completes_witness :
  exists w',
    clear_items (env_database_up FetchNone) (persisted three_items)
    = (Return (ApiResponse.mk "success"
                 "All items cleared successfully (3 items removed)"
                 [("items_cleared"%string, Some 3)]),
       w')
    /\ in_memory_store w' = []
    /\ persistence_file w'
       = saved_file (env_database_up FetchNone) []
                    (persistence_file (persisted three_items))
    /\ forall sort_by, get_snapshot sort_by w' = (Return [], w').
Proof.
  refine (X13_clear_items_succeeds_when_the_database_step_completes
            (env_database_up FetchNone) (persisted three_items) _).
  right. repeat split. now left.
Defined.

(** ** Health *)

(** X14: [health_check] never raises and changes neither the Registry nor
    the File Store.  It reports "connected" exactly when the probe's
    connection both opens and closes without an exception, "disconnected"
    otherwise, together with the current size of the Registry. *)
Theorem X14_health_check_reports (env : Env) (w : World) :
  exists w',
    health_check env w
    = (Return (Health.mk "healthy"
                 match connect (probe env), close (probe env) with
                 | None, None => "connected"%string
                 | _, _ => "disconnected"%string
                 end
                 (Z.of_nat (List.length (in_memory_store w)))
                 (now env)),
       w')
    /\ only_database_calls w w'.
Proof.
  destruct env as [p s n wr], p as [pc pcu pst pf pcm prb pcc pcl],
    w as [l f tr].
  unfold health_check. crunch;
    (eexists; split; [ reflexivity | database_calls ]).
Qed.

(** ** Loading *)

Lemma Items_of_dicts_all_or_nothing (ds : list ItemDict.t) :
  Items_of_dicts ds
  = if forallb dict_ok ds then Return (map Item_from_dict ds)
    else Raise (PyException "ValidationError").
Proof.
  induction ds as [| d ds IH]; cbn [Items_of_dicts forallb map].
  - reflexivity.
  - unfold Item_of_dict, Item_new, dict_ok at 1.
    destruct (Item_fields_ok _ _ _ _); cbn [andb]; [ | reflexivity ].
    rewrite IH. destruct (forallb dict_ok ds); reflexivity.
Qed.

(** X15: [load_from_file] never raises and loads all of the file or nothing.
    Without a file the Registry stays as it is.  With a malformed file, a
    document without the key "items", or a document in which any one entry
    breaks a constraint of [Item], the Registry becomes empty, the valid
    entries included.  Otherwise the Registry is the list of the document's
    entries, in order.  The file itself is not touched. *)
Theorem X15_load_from_file_all_or_nothing (w : World) :
  exists w',
    load_from_file w = (Return tt, w')
    /\ persistence_file w' = persistence_file w
    /\ trace w' = trace w
    /\ in_memory_store w'
       = match persistence_file w with
         | FileAbsent => in_memory_store w
         | FileMalformed => []
         | FileDoc d =>
             match doc_items d with
             | None => []
             | Some ds =>
                 if forallb dict_ok ds then map Item_from_dict ds else []
             end
         end.
Proof.
  rewrite load_from_file_run. eexists. split; [ reflexivity | ].
  destruct w as [l f tr]. cbn [persistence_file in_memory_store trace].
  destruct f as [| | [[ds |] ts]]; cbn [doc_items];
    try (repeat split; reflexivity).
  rewrite Items_of_dicts_all_or_nothing.
  destruct (forallb dict_ok ds); repeat split; reflexivity.
Qed.

(** One entry with a negative unit, and the whole file is dropped. *)
Example one_invalid_entry_drops_all :
  in_memory_store
    (snd (startup_event
            (boot (FileDoc
                     {| doc_items :=
                          Some [ItemDict.mk (Some 1) "A1" 5 2 cost_10_00;
                                ItemDict.mk (Some 2) "B7" (-3) 9 cost_0_5];
                        doc_timestamp := "2023-12-31T23:59:59" |}))))
  = [].
Proof. reflexivity. Qed.

(** X16: what a restart finds after [shutdown_event], for a Registry of
    validated items.  If the write worked, the Registry.  If [open] raised,
    whatever the file held before, since the file was not touched.  If
    [json.dump] raised after [open] had cut the file, the empty Registry: the
    items saved earlier are lost as well. *)
Theorem X16_restart_after_shutdown (env : Env) (w : World) :
  Registry_ok (in_memory_store w) ->
  in_memory_store
    (snd (startup_event
            (boot (persistence_file (snd (shutdown_event env w))))))
  = match write env with
    | WriteOk => in_memory_store w
    | OpenRaises =>
        in_memory_store (snd (startup_event (boot (persistence_file w))))
    | DumpRaises => []
    end.
Proof.
  intros Hw. unfold shutdown_event, startup_event.
  rewrite save_to_file_run. cbn [snd persistence_file]. unfold saved_file.
  destruct (write env).
  - now apply (load_saved _ (now env)).
  - reflexivity.
  - reflexivity.
Qed.

Lemma X16_restart_after_shutdown_witness :
  in_memory_store
    (snd (startup_event
            (boot (persistence_file
                     (snd (shutdown_event
                             (with_write DumpRaises env_database_down)
                             (persisted three_items)))))))
  = [].
Proof.
  refine (X16_restart_after_shutdown
            (with_write DumpRaises env_database_down)
            (persisted three_items) _).
  repeat constructor.
Defined.

(** ** Validated items *)

(** X17: in every world a process can reach (startup on any file, then any
    sequence of add, snapshot, remove and clear requests in any
    environments, the add requests validated), every item of the Registry
    has a non-empty code, a unit and an age that are not negative, and a
    cost that is at least zero, hence not NaN. *)
Theorem X17_reachable_registry_is_validated
  (f : file_state) (w : World) (item : Item.t) :
  reachable f w ->
  In item (in_memory_store w) ->
  Item.code item <> ""%string
  /\ 0 <= Item.unit item /\ 0 <= Item.age item
  /\ float_le float_zero (Item.cost item) = true
  /\ Item.cost item <> S754_nan.
Proof.
  intros Hreach Hin. apply reachable_Registry_ok in Hreach.
  unfold Registry_ok in Hreach. rewrite Forall_forall in Hreach.
  specialize (Hreach item Hin). unfold Item_ok, Item_fields_ok in Hreach.
  rewrite !andb_true_iff, negb_true_iff, !Z.leb_le in Hreach.
  destruct Hreach as [[[Hcode Hunit] Hage] Hcost].
  repeat split; try assumption.
  - intros E. rewrite E in Hcode. discriminate Hcode.
  - intros E. rewrite E in Hcost. discriminate Hcost.
Qed.

Lemma X17_reachable_registry_is_validated_witness :
  Item.code (item_with_id (Some 2) (request_A1 2 cost_10_02)) <> ""%string
  /\ 0 <= Item.unit (item_with_id (Some 2) (request_A1 2 cost_10_02))
  /\ 0 <= Item.age (item_with_id (Some 2) (request_A1 2 cost_10_02))
  /\ float_le float_zero
       (Item.cost (item_with_id (Some 2) (request_A1 2 cost_10_02))) = true
  /\ Item.cost (item_with_id (Some 2) (request_A1 2 cost_10_02)) <> S754_nan.
Proof.
  refine (X17_reachable_registry_is_validated
            FileAbsent
            (snd (add_item env_database_down (request_A1 2 cost_10_02)
                           (snd (startup_event (boot FileAbsent)))))
            _ _ _).
  - eapply reachable_handles.
    + apply reachable_startup.
    + apply handles_add. reflexivity.
  - left. reflexivity.
Defined.

(** ** Snapshot of a sorted Registry *)

Lemma sorted_of_sorted {A : Type} (lt : A -> A -> bool) (l : list A) :
  Sorted (fun x y => lt y x = false) l -> sorted lt l = l.
Proof.
  induction 1 as [| x l Hl IH Hhd]; cbn [sorted].
  - reflexivity.
  - rewrite IH. destruct Hhd as [| y l' Hxy]; cbn [insert_sorted].
    + reflexivity.
    + rewrite Hxy. reflexivity.
Qed.

Lemma float_le_not_lt (x y : float) :
  float_le float_zero x = true -> float_le float_zero y = true ->
  float_le x y = true -> float_lt y x = false.
Proof.
  intros Hx Hy. float_cases Hx; float_cases Hy; compare_cases.
Qed.

Lemma key_le_not_lt (sort_by : SortRequest) (x y : Item.t) :
  Item_ok x = true -> Item_ok y = true ->
  key_le sort_by x y -> key_lt sort_by y x = false.
Proof.
  intros Hx Hy. destruct sort_by; cbn.
  - intros H. now apply Z.ltb_ge.
  - intros H. now apply Z.ltb_ge.
  - apply float_le_not_lt; auto using Item_ok_cost.
Qed.

(** X18: when the validated items of the Registry are already non-decreasing
    in the requested field, the snapshot is the Registry itself, item for
    item: items added in ascending order come back in the order they were
    added. *)
Theorem X18_snapshot_of_a_sorted_registry
  (request : SortRequest) (w : World) :
  Registry_ok (in_memory_store w) ->
  Sorted (key_le request) (in_memory_store w) ->
  get_snapshot request w = (Return (in_memory_store w), w).
Proof.
  intros Hok Hsorted. rewrite get_snapshot_run. f_equal. f_equal.
  apply sorted_of_sorted. unfold Registry_ok in Hok.
  induction Hsorted as [| x l Hl IH Hhd]; [ constructor | ].
  inversion Hok; subst. constructor; [ now apply IH | ].
  destruct Hhd as [| y l' Hxy]; constructor.
  inversion H2; subst. now apply key_le_not_lt.
Qed.

Lemma X18_snapshot_of_a_sorted_registry_witness :
  get_snapshot sort_by_age
    (world_of [Item.mk (Some 3) "C3" 5 1 cost_10_00;
               Item.mk (Some 1) "A1" 5 2 cost_10_02;
               Item.mk (Some 2) "B7" 3 9 cost_0_5])
  = (Return [Item.mk (Some 3) "C3" 5 1 cost_10_00;
             Item.mk (Some 1) "A1" 5 2 cost_10_02;
             Item.mk (Some 2) "B7" 3 9 cost_0_5],
     world_of [Item.mk (Some 3) "C3" 5 1 cost_10_00;
               Item.mk (Some 1) "A1" 5 2 cost_10_02;
               Item.mk (Some 2) "B7" 3 9 cost_0_5]).
Proof.
  refine (X18_snapshot_of_a_sorted_registry sort_by_age (world_of _) _ _).
  - repeat constructor.
  - repeat constructor; cbn; lia.
Defined.

(** ** More on removing *)

(** X19: an item without an id (the stored procedure returned none, or the
    file held [null]) is out of reach of [remove_item]: whatever id is
    requested and in whatever environment, the item is still in the Registry
    afterwards. *)
Theorem X19_items_without_id_are_never_removed
  (env : Env) (request : RemoveRequest.t) (w : World) (item : Item.t) :
  In item (in_memory_store w) ->
  Item.id item = None ->
  In item (in_memory_store (snd (remove_item env request w))).
Proof.
  intros Hin Hid. rewrite remove_item_store. apply filter_In.
  split; [ exact Hin | ]. unfold id_differs. rewrite Hid. reflexivity.
Qed.

Lemma X19_items_without_id_are_never_removed_witness :
  In (Item.mk None "A1" 5 2 cost_10_00)
     (in_memory_store
        (snd (remove_item env_database_down (RemoveRequest.mk 0)
                          (world_of [Item.mk None "A1" 5 2 cost_10_00])))).
Proof.
  refine (X19_items_without_id_are_never_removed
            env_database_down (RemoveRequest.mk 0)
            (world_of [Item.mk None "A1" 5 2 cost_10_00])
            (Item.mk None "A1" 5 2 cost_10_00) _ eq_refl).
  left. reflexivity.
Defined.

(** X20: whenever [remove_item] succeeds, at least one item had the
    requested id, the Registry is what it was without the items of that id,
    in the same order, the response reports its new size, and the file was
    written once, as the last call of the request. *)
Theorem X20_remove_item_success_shape
  (env : Env) (request : RemoveRequest.t) (w w' : World)
  (response : ApiResponse.t) :
  remove_item env request w = (Return response, w') ->
  let x := RemoveRequest.id request in
  (1 <= count_id x (in_memory_store w))%nat
  /\ in_memory_store w' = filter (id_differs x) (in_memory_store w)
  /\ response = removed x (in_memory_store w')
  /\ persistence_file w'
     = saved_file env (in_memory_store w') (persistence_file w)
  /\ filter (fun e => negb (is_db_effect e)) (calls_since w w') = [FileWrite]
  /\ last (calls_since w w') DbConnect = FileWrite.
Proof.
  intros Hrun x. subst x.
  assert (Hcount : (1 <= count_id (RemoveRequest.id request)
                                  (in_memory_store w))%nat).
  { destruct (count_id (RemoveRequest.id request) (in_memory_store w))
      eqn:E; [ | lia ].
    exfalso.
    assert (Habsent : filter (id_differs (RemoveRequest.id request))
                             (in_memory_store w) = in_memory_store w).
    { apply forallb_filter_id, filter_length_forallb.
      pose proof (filter_id_differs_length (RemoveRequest.id request)
                                           (in_memory_store w)). lia. }
    destruct request as [x]. cbn [RemoveRequest.id] in Habsent.
    rewrite (remove_item_absent env x w Habsent) in Hrun.
    discriminate Hrun. }
  split; [ exact Hcount | ]. clear Hcount. revert Hrun.
  unfold saved_file, removed.
  destruct request as [x], env as [p s n wr],
    p as [pc pcu pst pf pcm prb pcc pcl],
    s as [sc scu sst sf scm srb scc scl], w as [l f tr].
  cbn [RemoveRequest.id in_memory_store persistence_file write now].
  reduce.
  destruct (Nat.eqb (List.length (filter (id_differs x) l)) (List.length l));
    reduce; [ intros H; discriminate H | ].
  repeat (split_case; reduce); intros H; try discriminate H;
    inversion H; subst; reduce;
    (split; [ reflexivity | split; [ reflexivity | split; [ reflexivity | ] ] ]);
    calls; split; reflexivity.
Qed.

Lemma X20_remove_item_success_shape_witness :
  (1 <= count_id 2 (in_memory_store (world_of three_items)))%nat
  /\ in_memory_store
       (snd (remove_item (env_database_up FetchNone) (RemoveRequest.mk 2)
                         (world_of three_items)))
     = filter (id_differs 2) three_items.
Proof.
  destruct (X20_remove_item_success_shape
              (env_database_up FetchNone) (RemoveRequest.mk 2)
              (world_of three_items) _ _ eq_refl)
    as [Hcount [Hstore _]].
  split; [ exact Hcount | exact Hstore ].
Defined.
